(** * DockerView: the terminal monitor of src/monitor.py

    A shallow embedding of [SystemMonitor]: the data-fetching methods
    ([_get_host_port_from_iptables], [_get_container_uptime],
    [_get_container_ram_stats], [get_docker_containers]), the action
    dispatcher [_perform_action], the two drawing methods that write to the
    instance ([_draw_container_list], [_draw_footer]) and the event loop
    [_app_loop].

    Python values are modelled as follows.
    - [str] is [string]; the strings the program handles (container names,
      rule dumps, port keys) are taken as byte strings, whose lexical byte
      order coincides with Python's code-point order on UTF-8 text.
    - [int] is [Z]; [divmod] by a positive constant is [Z.div]/[Z.modulo].
    - An exception is a value of [exn]; code that may raise and that talks to
      the outside world lives in the monad [M], which carries either a value
      or the exception raised, together with the list of external calls made.
    - [self] is the record [Monitor], passed in and returned explicitly. *)

From Stdlib Require Import ZArith List String Ascii Bool Lia.
From Stdlib Require Import Sorted Permutation DecimalString.
Import ListNotations.

Local Open Scope string_scope.
Local Open Scope list_scope.
Local Open Scope Z_scope.

(** ** Python primitives *)

Module Py.

(** Exception classes the program can meet.  All of them derive from
    [Exception]; [CalledProcessError] is what [subprocess.run(check=True)]
    raises on a non-zero exit status. *)
Inductive exn : Type :=
| KeyError (msg : string)
| ValueError (msg : string)
| TypeError (msg : string)
| IndexError (msg : string)
| CalledProcessError (returncode : Z) (msg : string)
| OtherError (msg : string).

(** [str(e)] *)
Definition str_of_exn (e : exn) : string :=
  match e with
  | KeyError m | ValueError m | TypeError m | IndexError m | OtherError m => m
  | CalledProcessError _ m => m
  end.

Inductive result (A : Type) : Type :=
| Ok (a : A)
| Raise (e : exn).
Arguments Ok {A} a.
Arguments Raise {A} e.

(** Calls that leave the process. *)
Inductive call : Type :=
| ListContainers                              (* docker_client.containers.list(all=True) *)
| ImageGet (short_id : string)                (* container.image *)
| Stats (short_id : string)                   (* container.stats(stream=False) *)
| Subprocess (command : string)               (* subprocess.run(command, shell=True, ...) *)
| Lifecycle (action : string) (short_id : string). (* start/stop/restart/rename/remove *)

(** A computation: its outcome and the external calls it made, in order. *)
Definition M (A : Type) : Type := (result A * list call)%type.

Definition ret {A} (a : A) : M A := (Ok a, []).
Definition raise {A} (e : exn) : M A := (Raise e, []).

Definition bind {A B} (m : M A) (k : A -> M B) : M B :=
  match m with
  | (Ok a, t) => let (r, t') := k a in (r, t ++ t')
  | (Raise e, t) => (Raise e, t)
  end.

(** [try: m  except <handled>: h e]; an exception the handler does not
    take is re-raised by returning [None]. *)
Definition try_except {A} (m : M A) (h : exn -> option (M A)) : M A :=
  match m with
  | (Ok a, t) => (Ok a, t)
  | (Raise e, t) =>
      match h e with
      | Some k => let (r, t') := k in (r, t ++ t')
      | None => (Raise e, t)
      end
  end.

(** An external call whose answer the environment fixed beforehand. *)
Definition external {A} (c : call) (answer : result A) : M A :=
  (answer, [c]).

Definition outcome {A} (m : M A) : result A := fst m.
Definition calls {A} (m : M A) : list call := snd m.

(** [for x in xs: body(x)], collecting the values. *)
Fixpoint for_each {A B} (body : A -> M B) (xs : list A) : M (list B) :=
  match xs with
  | [] => ret []
  | x :: xs' =>
      bind (body x) (fun y =>
      bind (for_each body xs') (fun ys => ret (y :: ys)))
  end.

(** Truth value of a [str]. *)
Definition truthy (s : string) : bool :=
  match s with EmptyString => false | String _ _ => true end.

(** Truth value of an attribute that is [None] or a [str]. *)
Definition truthy_opt (o : option string) : bool :=
  match o with None => false | Some s => truthy s end.

(** [f"{n}"] for an [int]. *)
Definition str_of_int (n : Z) : string := NilZero.string_of_int (Z.to_int n).

(** [needle in haystack] on [str]. *)
Fixpoint contains (needle haystack : string) : bool :=
  String.prefix needle haystack
  || match haystack with
     | EmptyString => false
     | String _ rest => contains needle rest
     end.

(** [l[i]] on a list, negative indices counting from the end; [None]
    stands for [IndexError]. *)
Definition getitem {A} (l : list A) (i : Z) : option A :=
  let n := Z.of_nat (List.length l) in
  if (i <? 0)%Z then
    if (0 <=? n + i)%Z then nth_error l (Z.to_nat (n + i)) else None
  else nth_error l (Z.to_nat i).

(** [l[a:b]] for integers [a] and [b]. *)
Definition slice {A} (l : list A) (a b : Z) : list A :=
  let n := Z.of_nat (List.length l) in
  let clamp i := if (i <? 0)%Z then Z.max 0 (n + i) else Z.min n i in
  let lo := clamp a in
  let hi := clamp b in
  firstn (Z.to_nat (hi - lo)) (skipn (Z.to_nat lo) l).

(** Truth value of a list. *)
Definition nonempty {A} (l : list A) : bool :=
  match l with [] => false | _ :: _ => true end.

(** [f"{x}"] for a value that is [None] or a [str]. *)
Definition str_of_opt (o : option string) : string :=
  match o with None => "None" | Some s => s end.

(** [ord(c)] *)
Definition ord (c : ascii) : Z := Z.of_nat (nat_of_ascii c).

(** [s.split('/')[0]] *)
Fixpoint split_slash_head (s : string) : string :=
  match s with
  | EmptyString => EmptyString
  | String c rest =>
      if Ascii.eqb c "/" then EmptyString else String c (split_slash_head rest)
  end.

(** [s.lower()] on ASCII text. *)
Definition lower_char (c : ascii) : ascii :=
  let n := nat_of_ascii c in
  if ((65 <=? n) && (n <=? 90))%nat then ascii_of_nat (n + 32) else c.

Fixpoint lower (s : string) : string :=
  match s with
  | EmptyString => EmptyString
  | String c rest => String (lower_char c) (lower rest)
  end.

(** Character classes of [re] on ASCII text: [\s] and [\d]. *)
Definition is_space (c : ascii) : bool :=
  let n := nat_of_ascii c in
  (((9 <=? n) && (n <=? 13)) || ((28 <=? n) && (n <=? 32)))%nat.

Definition is_digit (c : ascii) : bool :=
  let n := nat_of_ascii c in ((48 <=? n) && (n <=? 57))%nat.

(** Longest prefix whose characters satisfy [p], and the rest. *)
Fixpoint span (p : ascii -> bool) (s : string) : string * string :=
  match s with
  | EmptyString => (EmptyString, EmptyString)
  | String c rest =>
      if p c then let (a, b) := span p rest in (String c a, b)
      else (EmptyString, s)
  end.

Fixpoint strip_prefix (p s : string) : option string :=
  match p, s with
  | EmptyString, _ => Some s
  | String a p', String b s' => if Ascii.eqb a b then strip_prefix p' s' else None
  | String _ _, EmptyString => None
  end.

(** [re.match(r'--dport\s+(\d+)', s)]: group 1 when the pattern matches at
    the start of [s].  The classes [\s] and [\d] are disjoint, so the
    greedy repetitions never have to give a character back. *)
Definition match_dport (s : string) : option string :=
  match strip_prefix "--dport" s with
  | None => None
  | Some rest =>
      let (ws, rest1) := span is_space rest in
      if truthy ws then
        let (ds, _) := span is_digit rest1 in
        if truthy ds then Some ds else None
      else None
  end.

(** [re.search(r'--dport\s+(\d+)', s)]: the leftmost match. *)
Fixpoint search_dport (s : string) : option string :=
  match match_dport s with
  | Some d => Some d
  | None =>
      match s with
      | EmptyString => None
      | String _ rest => search_dport rest
      end
  end.

End Py.

Import Py.

Declare Scope py_scope.
Notation "x <- m ;; k" := (bind m (fun x => k))
  (at level 61, m at next level, right associativity) : py_scope.
Notation "' pat <- m ;; k" := (bind m (fun x => match x with pat => k end))
  (at level 61, pat pattern, m at next level, right associativity) : py_scope.
Notation "m ;;; k" := (bind m (fun _ => k))
  (at level 61, right associativity) : py_scope.
Local Open Scope py_scope.

(** ** The shell pipeline behind the NAT query

    [_get_host_port_from_iptables] hands [sh] the pipeline
    [sudo iptables-save | grep '<pattern>'].  The pipeline's exit status is
    that of its last command: [grep] exits 0 when it selected a line and 1
    when it selected none, whatever happened to [sudo iptables-save] before
    the pipe.  The model covers the patterns the program builds from a dotted
    address and a numeric port: ordinary characters, [.] and a following
    [*]; bracket expressions, anchors and backslash escapes are left out. *)

Module Shell.

Inductive atom : Type := Lit (c : ascii) | AnyChar.
Inductive token : Type := One (a : atom) | Star (a : atom).

Fixpoint tokens (pattern : string) : list token :=
  match pattern with
  | EmptyString => []
  | String c rest =>
      let a := if Ascii.eqb c "." then AnyChar else Lit c in
      match rest with
      | String "*" rest' => Star a :: tokens rest'
      | _ => One a :: tokens rest
      end
  end.

Definition atom_matches (a : atom) (c : ascii) : bool :=
  match a with Lit x => Ascii.eqb x c | AnyChar => true end.

Fixpoint match_here (pat : list token) : string -> bool :=
  match pat with
  | [] => fun _ => true
  | One a :: pat' =>
      fun s =>
        match s with
        | String c s' => atom_matches a c && match_here pat' s'
        | EmptyString => false
        end
  | Star a :: pat' =>
      fix star (s : string) : bool :=
        match_here pat' s
        || match s with
           | String c s' => atom_matches a c && star s'
           | EmptyString => false
           end
  end.

Fixpoint match_anywhere (pat : list token) (s : string) : bool :=
  match_here pat s
  || match s with
     | EmptyString => false
     | String _ s' => match_anywhere pat s'
     end.

(** [grep '<pattern>'] selects a line when the pattern matches some part of it. *)
Definition grep_selects (pattern line : string) : bool :=
  match_anywhere (tokens pattern) line.

(** What [sudo iptables-save] did: it printed the rule lines, or it could
    not run (sudo refused, the tool is missing) and printed nothing on its
    standard output. *)
Inductive iptables_save : Type :=
| Dumped (rules : list string)
| Failed.

Definition newline : string := String (ascii_of_nat 10) EmptyString.

Definition pipeline (save : iptables_save) (pattern : string) : result string :=
  let lines := match save with Dumped rules => rules | Failed => [] end in
  match filter (grep_selects pattern) lines with
  | [] => Raise (CalledProcessError 1 "grep: exit status 1")
  | selected => Ok (String.concat "" (map (fun l => l ++ newline)%string selected))
  end.

Fixpoint strip_last_quote (s : string) : option string :=
  match s with
  | EmptyString => None
  | String c EmptyString => if Ascii.eqb c "'" then Some EmptyString else None
  | String c rest =>
      match strip_last_quote rest with
      | Some r => Some (String c r)
      | None => None
      end
  end.

(** [subprocess.run(command, shell=True, capture_output=True, text=True,
    check=True)] for the one command shape the program issues.  A pattern
    holding a quote of its own breaks the quoting; [sh] then reports a
    syntax error (status 2). *)
Definition run (save : iptables_save) (command : string) : result string :=
  match strip_prefix "sudo iptables-save | grep '" command with
  | Some quoted =>
      match strip_last_quote quoted with
      | Some pattern =>
          if contains "'" pattern
          then Raise (CalledProcessError 2 "sh: syntax error")
          else pipeline save pattern
      | None => Raise (CalledProcessError 2 "sh: syntax error")
      end
  | None => Raise (CalledProcessError 127 "sh: command not found")
  end.

End Shell.

(** ** What the container runtime hands out *)

Module Docker.

Record Image : Type := mkImage {
  tags : list string;
  image_short_id : string
}.

(** What lines 73-78 of the source obtain from
    [attrs['State']['StartedAt']] and the clock.  The ISO parser and the
    clock are outside the embedding; a start timestamp is represented by
    what they yield. *)
Inductive StartedAt : Type :=
| Missing                       (* the key lookup raises KeyError *)
| Malformed                     (* datetime.fromisoformat raises ValueError *)
| Naive                         (* parsed, but without a UTC offset: [now - started_at] raises TypeError *)
| Elapsed (total_seconds : Z).  (* int((now - started_at).total_seconds()) *)

(** A container object, with the answers the runtime gives about it. *)
Record Container : Type := mkContainer {
  short_id : string;
  name : string;
  status : string;
  image : result Image;                                   (* container.image *)
  networks : list (string * option string);               (* NetworkSettings.Networks: name -> IPAddress *)
  port_data : list (string * option (list (option string))); (* NetworkSettings.Ports: key -> bindings' HostPort *)
  started_at : StartedAt;
  stats : result (option Z);                              (* stats(stream=False): memory_stats.usage *)
  lifecycle : string -> result unit                       (* start(), stop(), restart(), rename(), remove() *)
}.

End Docker.

(** One entry of the list [get_docker_containers] returns: the dict with
    keys 'id', 'name', 'status', 'image', 'ports', 'uptime', 'ram', 'obj'. *)
Module ContainerRecord.
Record t : Type := mk {
  id : string;
  name : string;
  status : string;
  image : string;
  ports : string;
  uptime : string;
  ram : string;
  obj : Docker.Container
}.
End ContainerRecord.

(** The world a refresh runs against. *)
Record World : Type := mkWorld {
  listing : result (list Docker.Container);  (* docker_client.containers.list(all=True) *)
  run : string -> result string              (* subprocess.run(command, shell=True, ..., check=True).stdout *)
}.

(** The instance attributes of [SystemMonitor] that the methods write. *)
Record Monitor : Type := mkMonitor {
  docker_error : option string;
  selected_index : Z;
  scroll_pos : Z;
  status_message : string
}.

Definition set_docker_error (self : Monitor) (e : string) : Monitor :=
  mkMonitor (Some e) (selected_index self) (scroll_pos self) (status_message self).
Definition set_selected_index (self : Monitor) (i : Z) : Monitor :=
  mkMonitor (docker_error self) i (scroll_pos self) (status_message self).
Definition set_scroll_pos (self : Monitor) (p : Z) : Monitor :=
  mkMonitor (docker_error self) (selected_index self) p (status_message self).
Definition set_status_message (self : Monitor) (m : string) : Monitor :=
  mkMonitor (docker_error self) (selected_index self) (scroll_pos self) m.

(** [SystemMonitor.__init__]; [ping] is the outcome of
    [docker.from_env(timeout=2)] followed by [ping()]. *)
Definition __init__ (ping : result unit) : Monitor :=
  let docker_error :=
    match ping with
    | Ok _ => None
    | Raise e => Some ("Docker not available: " ++ str_of_exn e)%string
    end in
  mkMonitor docker_error 0 0 "".

(** ** Data fetching *)

(** The command line built at line 51. *)
Definition iptables_command (container_ip container_i_port : string) : string :=
  ("sudo iptables-save | grep 'DNAT.*--to-destination "
     ++ container_ip ++ ":" ++ container_i_port ++ "'")%string.

(** The pattern handed to [grep] within that command line. *)
Definition iptables_pattern (container_ip container_i_port : string) : string :=
  ("DNAT.*--to-destination " ++ container_ip ++ ":" ++ container_i_port)%string.

(** [_get_host_port_from_iptables] (lines 40-66).  Inside the [try] block
    [Some v] stands for [return v] and [None] for falling through to the
    final [return 'N/A']. *)
Definition _get_host_port_from_iptables
    (run : string -> result string) (container_ip container_i_port : string)
  : M string :=
  if negb (truthy container_ip) || negb (truthy container_i_port) then ret "N/A"
  else
    let command := iptables_command container_ip container_i_port in
    returned <-
      try_except
        (output <- external (Subprocess command) (run command) ;;
         if truthy output then
           match search_dport output with
           | Some group1 => ret (Some group1)
           | None => ret None
           end
         else ret None)
        (fun e =>
           match e with
           | CalledProcessError _ _ => Some (ret None)   (* pass *)
           | _ => Some (ret (Some "Error"))              (* except Exception *)
           end) ;;
    match returned with
    | Some v => ret v
    | None => ret "N/A"
    end.

(** The list [uptime_parts] of lines 79-91. *)
Definition uptime_parts (total_seconds : Z) : list string :=
  let days := total_seconds / 86400 in
  let remainder := total_seconds mod 86400 in
  let hours := remainder / 3600 in
  let remainder := remainder mod 3600 in
  let minutes := remainder / 60 in
  let seconds := remainder mod 60 in
  let uptime_parts := [] in
  let uptime_parts :=
    if days >? 0 then uptime_parts ++ [(str_of_int days ++ "d")%string] else uptime_parts in
  let uptime_parts :=
    if hours >? 0 then uptime_parts ++ [(str_of_int hours ++ "h")%string] else uptime_parts in
  let uptime_parts :=
    if minutes >? 0 then uptime_parts ++ [(str_of_int minutes ++ "m")%string] else uptime_parts in
  let uptime_parts :=
    match uptime_parts with
    | [] => if seconds >=? 0 then uptime_parts ++ [(str_of_int seconds ++ "s")%string]
            else uptime_parts
    | _ => uptime_parts
    end in
  uptime_parts.

(** [_get_container_uptime] (lines 68-97). *)
Definition _get_container_uptime (container : Docker.Container) : M string :=
  try_except
    (let status := Docker.status container in
     if (status =? "running")%string then
       match Docker.started_at container with
       | Docker.Missing => raise (KeyError "'StartedAt'")
       | Docker.Malformed => raise (ValueError "Invalid isoformat string")
       | Docker.Naive =>
           raise (TypeError "can't subtract offset-naive and offset-aware datetimes")
       | Docker.Elapsed total_seconds =>
           ret (String.concat "" (uptime_parts total_seconds))
       end
     else ret "N/A")
    (fun e =>
       match e with
       | KeyError _ | ValueError _ => Some (ret "Error")
       | _ => None
       end).

(** [f"{mem_usage_bytes / (1024**3):.2f}G"] for a byte count between 0 and
    2^53, where the quotient is exact in binary floating point and the
    format rounds it to the nearest hundredth, ties to even. *)
Definition format_gb (mem_usage_bytes : Z) : string :=
  let scaled := mem_usage_bytes * 100 in
  let q := scaled / 1073741824 in
  let r := scaled mod 1073741824 in
  let hundredths :=
    if 2 * r >? 1073741824 then q + 1
    else if (2 * r =? 1073741824)%Z then (if Z.even q then q else q + 1)
    else q in
  let frac := hundredths mod 100 in
  (str_of_int (hundredths / 100) ++ "."
     ++ (if (frac <? 10)%Z then "0" else "") ++ str_of_int frac ++ "G")%string.

(** [_get_container_ram_stats] (lines 99-112). *)
Definition _get_container_ram_stats (container_obj : Docker.Container) : M string :=
  try_except
    (stats <- external (Stats (Docker.short_id container_obj))
                       (Docker.stats container_obj) ;;
     match stats with
     | None => raise (KeyError "'usage'")
     | Some mem_usage_bytes => ret (format_gb mem_usage_bytes)
     end)
    (fun _ => Some (ret "N/A")).

(** Step 1 of the loop body (lines 130-134): the first non-empty address. *)
Fixpoint first_ip_addr (networks : list (string * option string)) : string :=
  match networks with
  | [] => "N/A"
  | (_, address) :: rest =>
      match address with
      | Some ip => if truthy ip then ip else first_ip_addr rest
      | None => first_ip_addr rest
      end
  end.

(** The host port the runtime reports for one entry of [port_data]
    (lines 143-146), 'N/A' when it reports none. *)
Definition reported_host_port (host_ports_info : option (list (option string)))
  : string :=
  match host_ports_info with
  | Some (host_port_binding :: _) =>
      match host_port_binding with
      | Some host_port => host_port
      | None => "N/A"
      end
  | _ => "N/A"
  end.

(** Steps 2 to 4 for one entry of [port_data] (lines 141-156): the string
    appended to [port_list]. *)
Definition port_entry (run : string -> result string) (ip_addr : string)
    (item : string * option (list (option string))) : M string :=
  let (container_port_key, host_ports_info) := item in
  let container_i_port := split_slash_head container_port_key in
  let host_port_num := reported_host_port host_ports_info in
  host_port_num <-
    (if (host_port_num =? "N/A")%string
     then _get_host_port_from_iptables run ip_addr container_i_port
     else ret host_port_num) ;;
  if negb (host_port_num =? "N/A")%string
  then ret (host_port_num ++ "->" ++ container_i_port)%string
  else ret container_i_port.

(** The value of [ports] after lines 126-158. *)
Definition container_ports (run : string -> result string)
    (container : Docker.Container) : M string :=
  let ip_addr := first_ip_addr (Docker.networks container) in
  match Docker.port_data container with
  | [] => ret "N/A"
  | port_data =>
      port_list <- for_each (port_entry run ip_addr) port_data ;;
      ret (String.concat "," port_list)
  end.

(** [container.image.tags[0] if container.image.tags else
    container.image.short_id]: the attribute is fetched for the test and
    again for the branch taken. *)
Definition container_image (container : Docker.Container) : M string :=
  let fetch := external (ImageGet (Docker.short_id container)) (Docker.image container) in
  image <- fetch ;;
  match Docker.tags image with
  | _ :: _ =>
      image <- fetch ;;
      match Docker.tags image with
      | tag :: _ => ret tag
      | [] => raise (IndexError "list index out of range")
      end
  | [] =>
      image <- fetch ;;
      ret (Docker.image_short_id image)
  end.

(** The body of the loop of [get_docker_containers] (lines 124-171). *)
Definition container_record (run : string -> result string)
    (container : Docker.Container) : M ContainerRecord.t :=
  ports <- container_ports run container ;;
  ram_usage <- _get_container_ram_stats container ;;
  image <- container_image container ;;
  uptime <- _get_container_uptime container ;;
  ret (ContainerRecord.mk (Docker.short_id container) (Docker.name container)
         (Docker.status container) image ports uptime ram_usage container).

(** [sorted(containers, key=lambda c: c['name'])]: a stable sort on the
    names; [str] comparison is [String.leb]. *)
Fixpoint insert_by_name (c : ContainerRecord.t) (l : list ContainerRecord.t)
  : list ContainerRecord.t :=
  match l with
  | [] => [c]
  | d :: l' =>
      if String.leb (ContainerRecord.name c) (ContainerRecord.name d)
      then c :: d :: l'
      else d :: insert_by_name c l'
  end.

Fixpoint sorted (containers : list ContainerRecord.t) : list ContainerRecord.t :=
  match containers with
  | [] => []
  | c :: rest => insert_by_name c (sorted rest)
  end.

(** [get_docker_containers] (lines 114-176): the list returned and the
    instance afterwards. *)
Definition get_docker_containers (self : Monitor) (w : World)
  : M (list ContainerRecord.t * Monitor) :=
  if truthy_opt (docker_error self) then ret ([], self)
  else
    try_except
      (handles <- external ListContainers (listing w) ;;
       containers <- for_each (container_record (run w)) handles ;;
       ret (sorted containers, self))
      (fun e =>
         Some (ret ([], set_docker_error self ("Docker error: " ++ str_of_exn e)%string))).

(** ** Container actions *)

(** [_perform_action] (lines 181-202). *)
Definition _perform_action (self : Monitor) (action_name : string)
    (containers : list ContainerRecord.t) (new_name : option string) : M Monitor :=
  if negb (nonempty containers) || truthy_opt (docker_error self) then ret self
  else
    match getitem containers (selected_index self) with
    | None => raise (IndexError "list index out of range")
    | Some entry =>
        let container_obj := ContainerRecord.obj entry in
        let name := Docker.name container_obj in
        let invoke action :=
          external (Lifecycle action (Docker.short_id container_obj))
                   (Docker.lifecycle container_obj action) in
        try_except
          (if (action_name =? "rename")%string then
             invoke "rename" ;;;
             ret (set_status_message self
                    ("Successfully renamed " ++ name ++ " to "
                       ++ str_of_opt new_name ++ ".")%string)
           else if (action_name =? "remove")%string then
             invoke "remove" ;;;
             ret (set_status_message self
                    ("Successfully removed container " ++ name ++ ".")%string)
           else if (action_name =? "start")%string || (action_name =? "stop")%string
                   || (action_name =? "restart")%string then
             invoke action_name ;;;
             ret (set_status_message self
                    ("Successfully sent '" ++ action_name ++ "' command to "
                       ++ name ++ ".")%string)
           else
             ret (set_status_message self
                    ("Action '" ++ action_name
                       ++ "' not available for this container.")%string))
          (fun e => Some (ret (set_status_message self ("Error: " ++ str_of_exn e)%string)))
    end.

(** [_confirm_action] (lines 205-235) on the text the operator typed, as
    [getstr(...).decode('utf-8').strip()] delivers it. *)
Definition _confirm_action (typed : string) : bool :=
  let user_input := lower typed in
  (user_input =? "yes")%string || (user_input =? "y")%string.

(** [_get_new_name] (lines 237-267) on the same text. *)
Definition _get_new_name (typed : string) : string := typed.

(** ** Drawing

    Only what the drawing methods read from and write to the instance is
    modelled, with the part of the frame that depends on it; the terminal is
    taken to be large enough for every curses call to succeed. *)

Inductive Table : Type :=
| ErrorBanner (message : string)                       (* the standing error, in place of the table *)
| EmptyBanner                                          (* "No Docker containers found." *)
| Rows (visible_containers : list ContainerRecord.t).  (* the rows painted *)

(** The scroll adjustment of lines 371-374. *)
Definition adjust_scroll (self : Monitor) (list_height : Z) : Monitor :=
  let self :=
    if selected_index self <? scroll_pos self
    then set_scroll_pos self (selected_index self) else self in
  let self :=
    if selected_index self >=? scroll_pos self + list_height
    then set_scroll_pos self (selected_index self - list_height + 1) else self in
  self.

(** [_draw_container_list] (lines 337-437). *)
Definition _draw_container_list (self : Monitor) (height : Z)
    (containers : list ContainerRecord.t) : Monitor * Table :=
  if truthy_opt (docker_error self)
  then (self, ErrorBanner (str_of_opt (docker_error self)))
  else if negb (nonempty containers) then (self, EmptyBanner)
  else
    let list_height := height - 12 in
    let self := adjust_scroll self list_height in
    let visible_containers :=
      slice containers (scroll_pos self) (scroll_pos self + list_height) in
    (self, Rows visible_containers).

(** [_draw_footer] (lines 439-456): the instance afterwards and the status
    text painted, if any. *)
Definition _draw_footer (self : Monitor) : Monitor * option string :=
  if truthy (status_message self) then
    let painted := ("Status: " ++ status_message self)%string in
    if contains "Successfully" (status_message self)
       || contains "Error" (status_message self)
    then (set_status_message self "", Some painted)
    else (self, Some painted)
  else (self, None).

Record Frame : Type := mkFrame {
  table : Table;
  status_line : option string
}.

(** The drawing calls that end each pass of the loop (lines 506-510);
    [_draw_header] and [_draw_system_stats] touch no attribute. *)
Definition render (self : Monitor) (height : Z)
    (containers : list ContainerRecord.t) : Monitor * Frame :=
  let (self, table) := _draw_container_list self height containers in
  let (self, status_line) := _draw_footer self in
  (self, mkFrame table status_line).

(** *** The text of a row (lines 355-412)

    Field widths are counted in characters of ASCII text. *)

Fixpoint spaces (n : nat) : string :=
  match n with
  | O => EmptyString
  | S k => String " " (spaces k)
  end.

(** The format spec [:<width]: pad with spaces on the right. *)
Definition ljust (width : nat) (s : string) : string :=
  (s ++ spaces (width - String.length s))%string.

(** [s[:n]] *)
Fixpoint take (n : nat) (s : string) : string :=
  match n, s with
  | S k, String c rest => String c (take k rest)
  | _, _ => EmptyString
  end.

(** The format spec [:<width.width]: cut to [width] characters, then pad. *)
Definition column (width : nat) (s : string) : string :=
  ljust width (take width s).

Definition ID_WIDTH : nat := 12.
Definition NAME_WIDTH : nat := 20.
Definition IMAGE_WIDTH : nat := 30.
Definition PORT_WIDTH : nat := 6.
Definition STATUS_WIDTH : nat := 10.
Definition UPTIME_WIDTH : nat := 8.
Definition RAM_WIDTH : nat := 8.

(** [line_part1] (line 389). *)
Definition line_part1 (container : ContainerRecord.t) : string :=
  (ljust ID_WIDTH (ContainerRecord.id container) ++ " "
     ++ column NAME_WIDTH (ContainerRecord.name container) ++ " "
     ++ column IMAGE_WIDTH (ContainerRecord.image container) ++ " "
     ++ column PORT_WIDTH (ContainerRecord.ports container) ++ " ")%string.

(** [status_str], [uptime_str] and [ram_str] (lines 390-392). *)
Definition status_str (container : ContainerRecord.t) : string :=
  (ljust (STATUS_WIDTH - 1) (ContainerRecord.status container) ++ " ")%string.
Definition uptime_str (container : ContainerRecord.t) : string :=
  ljust UPTIME_WIDTH (ContainerRecord.uptime container).
Definition ram_str (container : ContainerRecord.t) : string :=
  ljust RAM_WIDTH (ContainerRecord.ram container).

(** The colour pair of the status column (lines 397-412): the number [n]
    of [curses.color_pair(n)]. *)
Definition status_attr (is_selected : bool) (container : ContainerRecord.t) : Z :=
  let status_lower := lower (ContainerRecord.status container) in
  if is_selected then
    if contains "up" status_lower then 6
    else if contains "exited" status_lower then 7
    else 8
  else
    if contains "up" status_lower then 1
    else if contains "exited" status_lower then 2
    else 3.

(** ** The main loop *)

Definition KEY_UP : Z := 259.
Definition KEY_DOWN : Z := 258.

(** [key in [ord(a), ord(b)]] *)
Definition key_in (key : Z) (a b : ascii) : bool :=
  (key =? ord a) || (key =? ord b).

(** One pass of the loop: what [getch] returned, the terminal height, the
    world as it is during the pass, and the text typed into a prompt if one
    opens. *)
Record Tick : Type := mkTick {
  key : Z;
  height : Z;
  world : World;
  typed : string
}.

Definition len (containers : list ContainerRecord.t) : Z :=
  Z.of_nat (List.length containers).

(** The [if]/[elif] chain after the quit test (lines 477-501). *)
Definition dispatch_key (self : Monitor) (containers : list ContainerRecord.t)
    (t : Tick) : M (Monitor * list ContainerRecord.t) :=
  let key := key t in
  if key =? KEY_UP then
    ret (set_selected_index self (Z.max 0 (selected_index self - 1)), containers)
  else if (key =? KEY_DOWN) && nonempty containers then
    ret (set_selected_index self
           (Z.min (len containers - 1) (selected_index self + 1)), containers)
  else if key_in key "u" "U" then
    '(containers, self) <- get_docker_containers self (world t) ;;
    ret (set_status_message self "Container list updated.", containers)
  else if key_in key "s" "S" then
    self <- _perform_action self "start" containers None ;;
    ret (self, containers)
  else if key_in key "x" "X" && nonempty containers then
    let self :=
      set_status_message self "Stopping container, this may take a minute..." in
    let (self, _) := _draw_footer self in
    self <- _perform_action self "stop" containers None ;;
    ret (self, containers)
  else if key_in key "r" "R" then
    self <- _perform_action self "restart" containers None ;;
    ret (self, containers)
  else if key_in key "d" "D" && nonempty containers then
    match getitem containers (selected_index self) with
    | None => raise (IndexError "list index out of range")
    | Some _ =>
        if _confirm_action (typed t) then
          self <- _perform_action self "remove" containers None ;;
          ret (self, containers)
        else ret (self, containers)
    end
  else if key_in key "n" "N" && nonempty containers then
    match getitem containers (selected_index self) with
    | None => raise (IndexError "list index out of range")
    | Some _ =>
        let new_name := _get_new_name (typed t) in
        if truthy new_name then
          self <- _perform_action self "rename" containers (Some new_name) ;;
          ret (self, containers)
        else ret (self, containers)
    end
  else ret (self, containers).

(** The refresh of an idle pass (lines 503-504). *)
Definition idle_refresh (self : Monitor) (containers : list ContainerRecord.t)
    (t : Tick) : M (Monitor * list ContainerRecord.t) :=
  if key t =? -1 then
    '(containers, self) <- get_docker_containers self (world t) ;;
    ret (self, containers)
  else ret (self, containers).

(** The body of [while True] (lines 471-511); [None] is [break]. *)
Definition loop_body (self : Monitor) (containers : list ContainerRecord.t)
    (t : Tick) : M (option (Monitor * list ContainerRecord.t)) :=
  if key_in (key t) "q" "Q" then ret None
  else
    '(self, containers) <- dispatch_key self containers t ;;
    '(self, containers) <- idle_refresh self containers t ;;
    let (self, _) := render self (height t) containers in
    ret (Some (self, containers)).

(** How a run over finitely many passes ends: the quit key was pressed, or
    the passes are used up with the loop still going. *)
Inductive Exit : Type :=
| Break
| Looping (self : Monitor) (containers : list ContainerRecord.t).

Fixpoint iterate (self : Monitor) (containers : list ContainerRecord.t)
    (ticks : list Tick) : M Exit :=
  match ticks with
  | [] => ret (Looping self containers)
  | t :: rest =>
      next <- loop_body self containers t ;;
      match next with
      | None => ret Break
      | Some (self, containers) => iterate self containers rest
      end
  end.

(** [_app_loop] (lines 461-511): the first enumeration, then the passes.
    An exception that leaves the loop is the [Raise] outcome. *)
Definition _app_loop (self : Monitor) (startup : World) (ticks : list Tick) : M Exit :=
  '(containers, self) <- get_docker_containers self startup ;;
  iterate self containers ticks.

(** ** The uptime rendering in the words of the specification

    Days, hours and minutes in descending order, a unit left out when its
    value is zero, and the seconds alone when no larger unit was written. *)

Definition spec_unit (value : Z) (suffix : string) : list string :=
  if value =? 0 then [] else [(str_of_int value ++ suffix)%string].

Definition spec_uptime (days hours minutes seconds : Z) : string :=
  let larger := spec_unit days "d" ++ spec_unit hours "h" ++ spec_unit minutes "m" in
  match larger with
  | [] => String.concat "" [(str_of_int seconds ++ "s")%string]
  | _ => String.concat "" larger
  end.

(** ** Sample data used by the closed examples *)

Definition no_lifecycle : string -> result unit := fun _ => Ok tt.

Definition sample_container (name status : string) (started : Docker.StartedAt)
  : Docker.Container :=
  Docker.mkContainer "0123456789ab" name status
    (Ok (Docker.mkImage ["nginx:latest"] "sha256:abcd"))
    [("bridge", Some "172.17.0.5")] [] started (Ok (Some 1073741824)) no_lifecycle.

Definition alpha : Docker.Container :=
  sample_container "alpha" "running" (Docker.Elapsed 3665).
Definition bravo : Docker.Container :=
  sample_container "bravo" "exited" (Docker.Elapsed 0).
Definition charlie : Docker.Container :=
  sample_container "charlie" "running" (Docker.Elapsed 59).

(** A running container whose start timestamp carries no UTC offset, such
    as "2024-05-01T10:00:00". *)
Definition drifting : Docker.Container :=
  sample_container "drifting" "running" Docker.Naive.

(** A world that lists the given containers and has an empty NAT table. *)
Definition world_of (handles : list Docker.Container) : World :=
  mkWorld (Ok handles) (Shell.run (Shell.Dumped [])).

(** A pass on a 40-line terminal with nothing typed into a prompt. *)
Definition pass (key : Z) (handles : list Docker.Container) : Tick :=
  mkTick key 40 (world_of handles) "".

(** The scenario of the specification: container web-1 declares port 80
    with no host port, has the address 172.17.0.5, and the NAT table maps
    54772 to 172.17.0.5:80. *)
Definition web_1 : Docker.Container :=
  Docker.mkContainer "c0ffee012345" "web-1" "running"
    (Ok (Docker.mkImage ["nginx:latest"] "sha256:abcd"))
    [("bridge", Some "172.17.0.5")] [("80/tcp", None)]
    (Docker.Elapsed 3665) (Ok (Some 1073741824)) no_lifecycle.

Definition web_1_rule : string :=
  ("-A DOCKER ! -i docker0 -p tcp -m tcp --dport 54772 "
     ++ "-j DNAT --to-destination 172.17.0.5:80")%string.

Definition web_1_world : World :=
  mkWorld (Ok [web_1]) (Shell.run (Shell.Dumped [web_1_rule])).

(** The same container when the shell cannot be started at all. *)
Definition no_shell_world : World :=
  mkWorld (Ok [web_1]) (fun _ => Raise (OtherError "[Errno 12] Cannot allocate memory")).

(** Six records and a monitor whose selection is on the last of them. *)
Definition sample_record (name : string) : ContainerRecord.t :=
  ContainerRecord.mk "0123456789ab" name "exited" "nginx:latest" "N/A" "N/A" "N/A"
    (sample_container name "exited" (Docker.Elapsed 0)).

Definition six_records : list ContainerRecord.t :=
  map sample_record ["a"; "b"; "c"; "d"; "e"; "f"].

Definition on_last_row : Monitor := mkMonitor None 5 0 "".

(** ** Reading outcomes

    [returns m P]: if [m] ends without raising, its value satisfies [P].
    [succeeds m]: [m] ends without raising. *)

Definition returns {A} (m : M A) (P : A -> Prop) : Prop :=
  match outcome m with
  | Ok a => P a
  | Raise _ => True
  end.

Definition succeeds {A} (m : M A) : Prop :=
  exists a, outcome m = Ok a.

(** The selection addresses an entry of the list the loop holds. *)
Definition index_valid (self : Monitor) (containers : list ContainerRecord.t) : Prop :=
  0 <= selected_index self < len containers.

(** The standing error is set. *)
Definition unavailable (self : Monitor) : Prop :=
  truthy_opt (docker_error self) = true.

(** A container whose image can be read and whose start timestamp, if it is
    running, is not one without offset, always yields its record. *)
Definition well_behaved (container : Docker.Container) : Prop :=
  (exists image, Docker.image container = Ok image)
  /\ (Docker.status container <> "running"
      \/ Docker.started_at container <> Docker.Naive).

(** The order [sorted] sorts by: [a <= b] on [str], and on the names of
    two records. *)
Definition str_le (a b : string) : Prop := String.leb a b = true.

Definition name_le (a b : ContainerRecord.t) : Prop :=
  str_le (ContainerRecord.name a) (ContainerRecord.name b).

(** The names of a list of records, and of a list of containers. *)
Definition names (containers : list ContainerRecord.t) : list string :=
  map ContainerRecord.name containers.

Definition handle_names (handles : list Docker.Container) : list string :=
  map Docker.name handles.

(** [silent m]: [m] made no external call. *)
Definition silent {A} (m : M A) : Prop := calls m = [].

(** A non-empty string of decimal digits. *)
Definition is_port_number (s : string) : Prop :=
  s <> "" /\ forall c, In c (list_ascii_of_string s) -> is_digit c = true.

(** A key that triggers a refresh: [u], [U], or no key within the timeout. *)
Definition refresh_key (key : Z) : bool :=
  key_in key "u" "U" || (key =? -1).

(** * Properties *)

(** ** Uptime *)

Section Uptime.

Variables days hours minutes seconds : Z.
Hypothesis hours_range : 0 <= hours < 24.
Hypothesis minutes_range : 0 <= minutes < 60.
Hypothesis seconds_range : 0 <= seconds < 60.

Lemma divmod_days :
  (86400 * days + 3600 * hours + 60 * minutes + seconds) / 86400 = days /\
  (86400 * days + 3600 * hours + 60 * minutes + seconds) mod 86400
  = 3600 * hours + 60 * minutes + seconds.
Proof.
  assert (R : 0 <= 3600 * hours + 60 * minutes + seconds < 86400) by lia.
  split.
  - symmetry. apply (Z.div_unique _ _ _ _ (or_introl R)). lia.
  - symmetry. apply (Z.mod_unique _ _ days _ (or_introl R)). lia.
Qed.

Lemma divmod_hours :
  (3600 * hours + 60 * minutes + seconds) / 3600 = hours /\
  (3600 * hours + 60 * minutes + seconds) mod 3600 = 60 * minutes + seconds.
Proof.
  assert (R : 0 <= 60 * minutes + seconds < 3600) by lia.
  split.
  - symmetry. apply (Z.div_unique _ _ _ _ (or_introl R)). lia.
  - symmetry. apply (Z.mod_unique _ _ hours _ (or_introl R)). lia.
Qed.

Lemma divmod_minutes :
  (60 * minutes + seconds) / 60 = minutes /\
  (60 * minutes + seconds) mod 60 = seconds.
Proof.
  split.
  - symmetry. apply (Z.div_unique _ _ _ _ (or_introl seconds_range)). lia.
  - symmetry. apply (Z.mod_unique _ _ minutes _ (or_introl seconds_range)). lia.
Qed.

(** The code writes a unit when its value is positive; hours and minutes
    are never negative, and a negative day count (a start timestamp ahead
    of the clock) is left out like a zero one. *)
Lemma uptime_parts_spec :
  String.concat ""
    (uptime_parts (86400 * days + 3600 * hours + 60 * minutes + seconds))
  = spec_uptime (Z.max 0 days) hours minutes seconds.
Proof.
  unfold uptime_parts, spec_uptime, spec_unit.
  destruct divmod_days as [-> ->].
  destruct divmod_hours as [-> ->].
  destruct divmod_minutes as [-> ->].
  assert (S0 : (seconds >=? 0) = true) by (apply Z.geb_le; lia).
  destruct (Z.gtb_spec days 0) as [D | D];
    destruct (Z.gtb_spec hours 0) as [H | H];
    destruct (Z.gtb_spec minutes 0) as [N | N];
    destruct (Z.eqb_spec (Z.max 0 days) 0) as [D0 | D0]; try lia;
    destruct (Z.eqb_spec hours 0) as [H0 | H0]; try lia;
    destruct (Z.eqb_spec minutes 0) as [N0 | N0]; try lia;
    rewrite ?Z.max_r by lia; cbn [app]; rewrite ?S0; reflexivity.
Qed.

End Uptime.

(** C1.  A running container whose start timestamp yields an elapsed time
    has its uptime written as days, hours and minutes in descending order,
    every zero-valued unit left out, and as the seconds alone when no larger
    unit was written: for every elapsed [total_seconds] the string is
    [spec_uptime] of its decomposition into units (a negative day count, from
    a start timestamp ahead of the clock, counts as zero).  Elapsed 3665 s
    gives "1h1m", 59 s gives "59s", 0 s gives "0s"; a container that is not
    running gives "N/A".  No external call is made. *)
Theorem uptime_rendering :
  (forall c total_seconds,
      Docker.status c = "running" ->
      Docker.started_at c = Docker.Elapsed total_seconds ->
      exists days hours minutes seconds,
        total_seconds = 86400 * days + 3600 * hours + 60 * minutes + seconds
        /\ 0 <= hours < 24 /\ 0 <= minutes < 60 /\ 0 <= seconds < 60
        /\ (0 <= total_seconds -> 0 <= days)
        /\ _get_container_uptime c
           = ret (spec_uptime (Z.max 0 days) hours minutes seconds))
  /\ (forall c, Docker.status c = "running" ->
        Docker.started_at c = Docker.Elapsed 3665 ->
        _get_container_uptime c = ret "1h1m")
  /\ (forall c, Docker.status c = "running" ->
        Docker.started_at c = Docker.Elapsed 59 ->
        _get_container_uptime c = ret "59s")
  /\ (forall c, Docker.status c = "running" ->
        Docker.started_at c = Docker.Elapsed 0 ->
        _get_container_uptime c = ret "0s")
  /\ (forall c, Docker.status c <> "running" ->
        _get_container_uptime c = ret "N/A").
Proof.
  split; [| split; [| split; [| split]]].
  - intros c t Hs He.
    exists (t / 86400), ((t mod 86400) / 3600),
      (((t mod 86400) mod 3600) / 60), (((t mod 86400) mod 3600) mod 60).
    pose proof (Z.div_mod t 86400 ltac:(lia)) as E1.
    pose proof (Z.mod_pos_bound t 86400 ltac:(lia)) as B1.
    pose proof (Z.div_mod (t mod 86400) 3600 ltac:(lia)) as E2.
    pose proof (Z.mod_pos_bound (t mod 86400) 3600 ltac:(lia)) as B2.
    pose proof (Z.div_mod ((t mod 86400) mod 3600) 60 ltac:(lia)) as E3.
    pose proof (Z.mod_pos_bound ((t mod 86400) mod 3600) 60 ltac:(lia)) as B3.
    assert (Hh : 0 <= (t mod 86400) / 3600 < 24)
      by (split; [apply Z.div_pos; lia | apply Z.div_lt_upper_bound; lia]).
    assert (Hm : 0 <= ((t mod 86400) mod 3600) / 60 < 60)
      by (split; [apply Z.div_pos; lia | apply Z.div_lt_upper_bound; lia]).
    assert (Et : t = 86400 * (t / 86400) + 3600 * ((t mod 86400) / 3600)
                     + 60 * (((t mod 86400) mod 3600) / 60)
                     + ((t mod 86400) mod 3600) mod 60) by lia.
    split; [exact Et |]. split; [exact Hh |]. split; [exact Hm |].
    split; [exact B3 |]. split.
    + intros Ht. apply Z.div_pos; lia.
    + unfold _get_container_uptime. rewrite Hs, He. cbn.
      rewrite Et at 1.
      rewrite (uptime_parts_spec _ _ _ _ Hh Hm B3). reflexivity.
  - intros c Hs He. unfold _get_container_uptime. rewrite Hs, He. reflexivity.
  - intros c Hs He. unfold _get_container_uptime. rewrite Hs, He. reflexivity.
  - intros c Hs He. unfold _get_container_uptime. rewrite Hs, He. reflexivity.
  - intros c Hs. unfold _get_container_uptime.
    destruct (String.eqb_spec (Docker.status c) "running") as [E | E];
      [contradiction | reflexivity].
Qed.

Lemma uptime_rendering_witness :
  (exists days hours minutes seconds,
      93784 = 86400 * days + 3600 * hours + 60 * minutes + seconds
      /\ 0 <= hours < 24 /\ 0 <= minutes < 60 /\ 0 <= seconds < 60
      /\ (0 <= 93784 -> 0 <= days)
      /\ _get_container_uptime
           (sample_container "web-1" "running" (Docker.Elapsed 93784))
         = ret (spec_uptime (Z.max 0 days) hours minutes seconds))
  /\ _get_container_uptime
       (sample_container "web-1" "running" (Docker.Elapsed 3665)) = ret "1h1m"
  /\ _get_container_uptime
       (sample_container "web-1" "exited" (Docker.Elapsed 3665)) = ret "N/A".
Proof.
  split; [| split].
  - apply (proj1 uptime_rendering); reflexivity.
  - apply (proj1 (proj2 uptime_rendering)); reflexivity.
  - apply (proj2 (proj2 (proj2 (proj2 uptime_rendering)))). cbn. discriminate.
Defined.

(** ** The NAT fallback resolver *)

Lemma truthy_true (s : string) : truthy s = true <-> s <> "".
Proof. destruct s; cbn; split; congruence. Qed.

Lemma truthy_false (s : string) : truthy s = false <-> s = "".
Proof. destruct s; cbn; split; congruence. Qed.

Lemma span_head (p : ascii -> bool) (s : string) (c : ascii) (a b : string) :
  span p s = (String c a, b) -> p c = true.
Proof.
  destruct s as [| x s']; cbn; [discriminate |].
  destruct (p x) eqn:Hp; [| discriminate].
  destruct (span p s') as [a' b']. intros [= <- _ _]. exact Hp.
Qed.

Lemma match_dport_digit (s d : string) :
  match_dport s = Some d -> exists c d', d = String c d' /\ is_digit c = true.
Proof.
  unfold match_dport.
  destruct (strip_prefix "--dport" s) as [rest |]; [| discriminate].
  destruct (span is_space rest) as [ws rest1].
  destruct (truthy ws); [| discriminate].
  destruct (span is_digit rest1) as [ds tail] eqn:Hd.
  destruct ds as [| c ds']; cbn; [discriminate |].
  intros [= <-]. exists c, ds'. split; [reflexivity |].
  exact (span_head _ _ _ _ _ Hd).
Qed.

(** Group 1 of a match starts with a digit; it is never a sentinel. *)
Lemma search_dport_digit (s d : string) :
  search_dport s = Some d -> exists c d', d = String c d' /\ is_digit c = true.
Proof.
  induction s as [| x s' IH]; cbn [search_dport];
    destruct (match_dport _) as [g |] eqn:Hm.
  - intros [= <-]. exact (match_dport_digit _ _ Hm).
  - discriminate.
  - intros [= <-]. exact (match_dport_digit _ _ Hm).
  - exact IH.
Qed.

Lemma search_dport_not_sentinel (s d : string) :
  search_dport s = Some d -> d <> "Error" /\ d <> "N/A".
Proof.
  intros H. destruct (search_dport_digit _ _ H) as (c & d' & -> & Hc).
  split; intros [= -> _]; discriminate Hc.
Qed.

Lemma search_dport_empty : search_dport "" = None.
Proof. reflexivity. Qed.

(** With both arguments non-empty exactly one command is issued, and the
    answer is read off what running it gave. *)
Lemma nat_resolver_run (run : string -> result string) (ip port : string) :
  ip <> "" -> port <> "" ->
  _get_host_port_from_iptables run ip port
  = (Ok match run (iptables_command ip port) with
        | Ok output =>
            match search_dport output with Some group1 => group1 | None => "N/A" end
        | Raise (CalledProcessError _ _) => "N/A"
        | Raise _ => "Error"
        end,
     [Subprocess (iptables_command ip port)]).
Proof.
  intros Hip Hport. unfold _get_host_port_from_iptables.
  apply truthy_true in Hip, Hport. rewrite Hip, Hport. cbn [negb orb].
  unfold external, try_except, bind, ret.
  destruct (run (iptables_command ip port)) as [output | e].
  - destruct output as [| c output'].
    + reflexivity.
    + cbn [truthy]. destruct (search_dport (String c output')); reflexivity.
  - destruct e; reflexivity.
Qed.

(** C2, as the code has it.  With an empty address or port the resolver
    answers "N/A" and issues no query.  Otherwise it issues the one query
    and answers "Error" exactly when running the command raised something
    other than a non-zero exit status; a non-zero exit status (no rule
    matched, but also any failure inside the pipeline, of which only
    [grep]'s status is seen) gives "N/A", as does output without a
    [--dport] clause; output with one gives its port number. *)
Theorem nat_fallback_answers (run : string -> result string) (ip port : string) :
  (ip = "" \/ port = "" -> _get_host_port_from_iptables run ip port = ret "N/A")
  /\ (ip <> "" -> port <> "" ->
      let command := iptables_command ip port in
      let answer := _get_host_port_from_iptables run ip port in
      calls answer = [Subprocess command]
      /\ (outcome answer = Ok "Error" <->
          exists e, run command = Raise e
                    /\ forall rc m, e <> CalledProcessError rc m)
      /\ (forall rc m, run command = Raise (CalledProcessError rc m) ->
          outcome answer = Ok "N/A")
      /\ (forall output, run command = Ok output -> search_dport output = None ->
          outcome answer = Ok "N/A")
      /\ (forall output group1, run command = Ok output ->
          search_dport output = Some group1 -> outcome answer = Ok group1)).
Proof.
  split.
  - intros H. unfold _get_host_port_from_iptables.
    destruct H as [-> | ->]; cbn; [reflexivity |].
    rewrite orb_true_r. reflexivity.
  - intros Hip Hport command answer. subst answer.
    rewrite (nat_resolver_run run ip port Hip Hport). fold command.
    unfold calls, outcome. cbn [fst snd].
    split; [reflexivity |]. split; [| split; [| split]].
    + split.
      * destruct (run command) as [output | e] eqn:Hr.
        -- destruct (search_dport output) as [g |] eqn:Hs; [| discriminate].
           intros [= ->]. apply search_dport_not_sentinel in Hs. tauto.
        -- intros H. exists e. split; [reflexivity |].
           intros rc m ->. discriminate H.
      * intros (e & -> & Hne).
        destruct e; try reflexivity. exfalso. exact (Hne _ _ eq_refl).
    + intros rc m ->. reflexivity.
    + intros output -> ->. reflexivity.
    + intros output g -> ->. reflexivity.
Qed.

Lemma nat_fallback_answers_witness :
  outcome (_get_host_port_from_iptables
             (Shell.run (Shell.Dumped
                [("-A DOCKER ! -i docker0 -p tcp -m tcp --dport 54772 "
                    ++ "-j DNAT --to-destination 172.17.0.5:80")%string]))
             "172.17.0.5" "80") = Ok "54772".
Proof.
  refine (proj2 (proj2 (proj2 (proj2
            (proj2 (nat_fallback_answers _ "172.17.0.5" "80")
                   ltac:(discriminate) ltac:(discriminate)))))
          _ "54772" _ _); reflexivity.
Defined.

(** C2 as stated fails: when [sudo iptables-save] cannot run (permission
    refused, tool missing) the pipeline still ends with [grep]'s status 1,
    and when the selected rule carries no [--dport] clause the search finds
    nothing; both times the answer is "N/A", not "Error". *)
Lemma nat_fallback_failure_reads_as_no_rule :
  outcome (_get_host_port_from_iptables (Shell.run Shell.Failed)
             "172.17.0.5" "80") = Ok "N/A"
  /\ outcome (_get_host_port_from_iptables
                (Shell.run (Shell.Dumped
                   ["-A DOCKER -j DNAT --to-destination 172.17.0.5:80"]))
                "172.17.0.5" "80") = Ok "N/A".
Proof. split; reflexivity. Qed.

(** ** Reasoning about computations *)

Section Outcomes.

Context {A B : Type}.

Lemma returns_ret (a : A) (P : A -> Prop) : P a -> returns (ret a) P.
Proof. intros H. exact H. Qed.

Lemma returns_raise (e : exn) (P : A -> Prop) : returns (raise e) P.
Proof. exact I. Qed.

Lemma returns_external (c : call) (answer : result A) (P : A -> Prop) :
  (forall a, answer = Ok a -> P a) -> returns (external c answer) P.
Proof.
  intros H. unfold returns, external, outcome. cbn.
  destruct answer; [apply H; reflexivity | exact I].
Qed.

Lemma returns_bind (m : M A) (k : A -> M B) (Q : A -> Prop) (P : B -> Prop) :
  returns m Q -> (forall a, Q a -> returns (k a) P) -> returns (bind m k) P.
Proof.
  unfold returns, bind, outcome. destruct m as [[a | e] t]; cbn; [| trivial].
  intros HQ Hk. specialize (Hk a HQ). destruct (k a) as [[b | e] t']; cbn in *; trivial.
Qed.

Lemma returns_try_except (m : M A) (h : exn -> option (M A)) (P : A -> Prop) :
  returns m P -> (forall e k, h e = Some k -> returns k P) ->
  returns (try_except m h) P.
Proof.
  unfold returns, try_except, outcome. destruct m as [[a | e] t]; cbn; [trivial |].
  intros _ Hh. destruct (h e) as [k |] eqn:He; cbn; [| trivial].
  specialize (Hh e k He). destruct k as [[a | e'] t']; cbn in *; trivial.
Qed.

Lemma returns_weaken (m : M A) (P Q : A -> Prop) :
  returns m P -> (forall a, P a -> Q a) -> returns m Q.
Proof.
  unfold returns. destruct (outcome m); [| trivial]. intros H HPQ. exact (HPQ a H).
Qed.

Lemma returns_elim (m : M A) (P : A -> Prop) (a : A) :
  returns m P -> outcome m = Ok a -> P a.
Proof. unfold returns. intros H E. rewrite E in H. exact H. Qed.

Lemma succeeds_ret (a : A) : succeeds (ret a).
Proof. exists a. reflexivity. Qed.

Lemma succeeds_bind (m : M A) (k : A -> M B) (Q : A -> Prop) :
  succeeds m -> returns m Q -> (forall a, Q a -> succeeds (k a)) ->
  succeeds (bind m k).
Proof.
  unfold succeeds, returns, bind, outcome.
  destruct m as [[a | e] t]; cbn; intros [a' E] HQ Hk; [| discriminate].
  destruct (Hk a HQ) as [b Eb]. destruct (k a) as [[b' | e] t']; cbn in *;
    [exists b'; reflexivity | discriminate].
Qed.

(** A handler that takes every exception and itself ends well makes the
    whole [try] end well. *)
Lemma succeeds_try_except_all (m : M A) (h : exn -> M A) :
  (forall e, succeeds (h e)) -> succeeds (try_except m (fun e => Some (h e))).
Proof.
  unfold succeeds, try_except, outcome. intros Hh.
  destruct m as [[a | e] t]; cbn; [exists a; reflexivity |].
  destruct (Hh e) as [a Ea]. destruct (h e) as [[a' | e'] t']; cbn in *;
    [exists a'; reflexivity | discriminate].
Qed.

End Outcomes.

Lemma returns_any {A} (m : M A) : returns m (fun _ => True).
Proof. unfold returns. destruct (outcome m); exact I. Qed.

Lemma returns_self {A} (m : M A) : returns m (fun a => outcome m = Ok a).
Proof. unfold returns. destruct (outcome m); [reflexivity | exact I]. Qed.

Lemma returns_for_each {A B} (body : A -> M B) (P : A -> B -> Prop) (xs : list A) :
  (forall x, returns (body x) (P x)) ->
  returns (for_each body xs) (fun ys => Forall2 P xs ys).
Proof.
  intros Hb. induction xs as [| x xs IH]; cbn [for_each].
  - apply returns_ret. constructor.
  - apply (returns_bind _ _ (P x)); [apply Hb |]. intros y Hy.
    apply (returns_bind _ _ (fun ys => Forall2 P xs ys)); [exact IH |].
    intros ys Hys. apply returns_ret. constructor; assumption.
Qed.

(** ** What each method does to the instance *)

Lemma get_docker_containers_unavailable (self : Monitor) (w : World) :
  unavailable self -> get_docker_containers self w = ret ([], self).
Proof. unfold unavailable, get_docker_containers. intros ->. reflexivity. Qed.

(** A refresh never raises. *)
Lemma get_docker_containers_succeeds (self : Monitor) (w : World) :
  succeeds (get_docker_containers self w).
Proof.
  unfold get_docker_containers.
  destruct (truthy_opt (docker_error self)); [apply succeeds_ret |].
  apply succeeds_try_except_all. intros e. apply succeeds_ret.
Qed.

(** A refresh leaves the cursor and the status message alone; the standing
    error either stays as it was or is set, with an empty list returned. *)
Lemma get_docker_containers_keeps (self : Monitor) (w : World) :
  returns (get_docker_containers self w)
    (fun r =>
       selected_index (snd r) = selected_index self
       /\ scroll_pos (snd r) = scroll_pos self
       /\ status_message (snd r) = status_message self
       /\ (docker_error (snd r) = docker_error self
           \/ (fst r = [] /\ unavailable (snd r) /\ ~ unavailable self))).
Proof.
  unfold get_docker_containers, unavailable.
  destruct (truthy_opt (docker_error self)) eqn:Herr.
  - apply returns_ret. cbn. auto.
  - apply returns_try_except.
    + apply (returns_bind _ _ (fun _ => True)); [apply returns_any |].
      intros handles _.
      apply (returns_bind _ _ (fun _ => True)); [apply returns_any |].
      intros rs _. apply returns_ret. cbn. auto.
    + intros e k [= <-]. apply returns_ret. cbn.
      repeat split; try reflexivity. right. repeat split. congruence.
Qed.

Lemma getitem_valid {A} (l : list A) (i : Z) :
  0 <= i < Z.of_nat (List.length l) -> exists x, getitem l i = Some x.
Proof.
  intros H. unfold getitem.
  destruct (Z.ltb_spec i 0) as [Hn | _]; [lia |].
  destruct (nth_error l (Z.to_nat i)) as [x |] eqn:E; [exists x; reflexivity |].
  apply nth_error_None in E. lia.
Qed.

Lemma getitem_stale {A} (l : list A) (i : Z) :
  Z.of_nat (List.length l) <= i -> getitem l i = None.
Proof.
  intros H. unfold getitem.
  destruct (Z.ltb_spec i 0) as [Hn | _]; [lia |].
  apply nth_error_None. lia.
Qed.

(** An action writes the status message only. *)
Lemma _perform_action_keeps (self : Monitor) (action_name : string)
    (containers : list ContainerRecord.t) (new_name : option string) :
  returns (_perform_action self action_name containers new_name)
    (fun self' =>
       selected_index self' = selected_index self
       /\ scroll_pos self' = scroll_pos self
       /\ docker_error self' = docker_error self).
Proof.
  unfold _perform_action.
  destruct (negb (nonempty containers) || truthy_opt (docker_error self));
    [apply returns_ret; auto |].
  destruct (getitem containers (selected_index self)) as [entry |];
    [| apply returns_raise].
  apply returns_try_except.
  - repeat match goal with
           | |- context [if ?b then _ else _] => destruct b
           end;
      try (apply (returns_bind _ _ (fun _ => True));
           [apply returns_external; trivial | intros _ _]);
      apply returns_ret; cbn; auto.
  - intros e k [= <-]. apply returns_ret. cbn. auto.
Qed.


Lemma adjust_scroll_keeps (self : Monitor) (list_height : Z) :
  selected_index (adjust_scroll self list_height) = selected_index self
  /\ docker_error (adjust_scroll self list_height) = docker_error self
  /\ status_message (adjust_scroll self list_height) = status_message self.
Proof.
  unfold adjust_scroll.
  destruct (selected_index self <? scroll_pos self); cbn;
    match goal with |- context [if ?b then _ else _] => destruct b end; cbn; auto.
Qed.

(** The value the scroll offset takes (lines 371-374). *)
Lemma adjust_scroll_value (self : Monitor) (list_height : Z) :
  let i := selected_index self in
  let top := Z.min (scroll_pos self) i in
  scroll_pos (adjust_scroll self list_height)
  = if i >=? top + list_height then i - list_height + 1 else top.
Proof.
  unfold adjust_scroll. cbn zeta.
  destruct (Z.ltb_spec (selected_index self) (scroll_pos self)) as [H | H]; cbn.
  - rewrite Z.min_r by lia.
    destruct (selected_index self >=? selected_index self + list_height); reflexivity.
  - rewrite Z.min_l by lia.
    destruct (selected_index self >=? scroll_pos self + list_height); reflexivity.
Qed.

Lemma adjust_scroll_nonneg (self : Monitor) (list_height : Z) :
  0 <= selected_index self -> 0 <= scroll_pos self ->
  0 <= scroll_pos (adjust_scroll self list_height).
Proof.
  intros Hi Hs. rewrite adjust_scroll_value. cbn zeta.
  destruct (Z.geb_spec (selected_index self)
              (Z.min (scroll_pos self) (selected_index self) + list_height)); lia.
Qed.

Lemma _draw_footer_keeps (self : Monitor) :
  selected_index (fst (_draw_footer self)) = selected_index self
  /\ scroll_pos (fst (_draw_footer self)) = scroll_pos self
  /\ docker_error (fst (_draw_footer self)) = docker_error self.
Proof.
  unfold _draw_footer.
  destruct (truthy (status_message self)); [| cbn; auto].
  destruct (contains "Successfully" (status_message self)
            || contains "Error" (status_message self)); cbn; auto.
Qed.

Lemma _draw_container_list_keeps (self : Monitor) (height : Z)
    (containers : list ContainerRecord.t) :
  selected_index (fst (_draw_container_list self height containers))
  = selected_index self
  /\ docker_error (fst (_draw_container_list self height containers))
     = docker_error self
  /\ status_message (fst (_draw_container_list self height containers))
     = status_message self.
Proof.
  unfold _draw_container_list.
  destruct (truthy_opt (docker_error self)); [cbn; auto |].
  destruct (negb (nonempty containers)); [cbn; auto |].
  cbn [fst]. apply adjust_scroll_keeps.
Qed.

Lemma _draw_container_list_scroll (self : Monitor) (height : Z)
    (containers : list ContainerRecord.t) :
  scroll_pos (fst (_draw_container_list self height containers))
  = if truthy_opt (docker_error self) || negb (nonempty containers)
    then scroll_pos self
    else scroll_pos (adjust_scroll self (height - 12)).
Proof.
  unfold _draw_container_list.
  destruct (truthy_opt (docker_error self)); [reflexivity |].
  destruct (negb (nonempty containers)); reflexivity.
Qed.

Lemma render_unfold (self : Monitor) (height : Z)
    (containers : list ContainerRecord.t) :
  fst (render self height containers)
  = fst (_draw_footer (fst (_draw_container_list self height containers))).
Proof.
  unfold render.
  destruct (_draw_container_list self height containers) as [self1 table].
  cbn [fst]. destruct (_draw_footer self1) as [self2 line]. reflexivity.
Qed.

Lemma render_keeps (self : Monitor) (height : Z)
    (containers : list ContainerRecord.t) :
  selected_index (fst (render self height containers)) = selected_index self
  /\ docker_error (fst (render self height containers)) = docker_error self.
Proof.
  rewrite render_unfold.
  destruct (_draw_footer_keeps (fst (_draw_container_list self height containers)))
    as (-> & _ & ->).
  destruct (_draw_container_list_keeps self height containers) as (-> & -> & _).
  auto.
Qed.

Lemma render_scroll (self : Monitor) (height : Z)
    (containers : list ContainerRecord.t) :
  scroll_pos (fst (render self height containers))
  = if truthy_opt (docker_error self) || negb (nonempty containers)
    then scroll_pos self
    else scroll_pos (adjust_scroll self (height - 12)).
Proof.
  rewrite render_unfold.
  destruct (_draw_footer_keeps (fst (_draw_container_list self height containers)))
    as (_ & -> & _).
  apply _draw_container_list_scroll.
Qed.

Lemma render_scroll_nonneg (self : Monitor) (height : Z)
    (containers : list ContainerRecord.t) :
  0 <= selected_index self -> 0 <= scroll_pos self ->
  0 <= scroll_pos (fst (render self height containers)).
Proof.
  intros Hi Hs. rewrite render_scroll.
  destruct (truthy_opt (docker_error self) || negb (nonempty containers));
    [exact Hs | apply adjust_scroll_nonneg; assumption].
Qed.

(** ** The key dispatch *)

Lemma nonempty_true (containers : list ContainerRecord.t) :
  nonempty containers = true -> containers <> [] /\ 1 <= len containers.
Proof.
  destruct containers; cbn; [discriminate |]. intros _. split; [discriminate |].
  unfold len. cbn [List.length]. lia.
Qed.

(** What a key can do to the instance: the scroll offset is untouched, the
    selection stays, moves up (not below 0) or moves down (not past the last
    entry of a non-empty list), and the standing error stays or is set by a
    refresh that returned nothing. *)
Lemma dispatch_key_keeps (self : Monitor) (containers : list ContainerRecord.t)
    (t : Tick) :
  returns (dispatch_key self containers t)
    (fun r =>
       scroll_pos (fst r) = scroll_pos self
       /\ (selected_index (fst r) = selected_index self
           \/ selected_index (fst r) = Z.max 0 (selected_index self - 1)
           \/ (1 <= len containers
               /\ selected_index (fst r)
                  = Z.min (len containers - 1) (selected_index self + 1)))
       /\ (docker_error (fst r) = docker_error self
           \/ (snd r = [] /\ unavailable (fst r) /\ ~ unavailable self))).
Proof.
  assert (Hact : forall self0 action new_name,
             selected_index self0 = selected_index self ->
             scroll_pos self0 = scroll_pos self ->
             docker_error self0 = docker_error self ->
             returns (self1 <- _perform_action self0 action containers new_name ;;
                      ret (self1, containers))
               (fun r =>
                  scroll_pos (fst r) = scroll_pos self
                  /\ (selected_index (fst r) = selected_index self
                      \/ selected_index (fst r) = Z.max 0 (selected_index self - 1)
                      \/ (1 <= len containers
                          /\ selected_index (fst r)
                             = Z.min (len containers - 1) (selected_index self + 1)))
                  /\ (docker_error (fst r) = docker_error self
                      \/ (snd r = [] /\ unavailable (fst r) /\ ~ unavailable self)))).
  { intros self0 action new_name Hi Hs He.
    eapply returns_bind; [apply _perform_action_keeps |].
    intros self1 (Hi1 & Hs1 & He1). apply returns_ret. cbn.
    rewrite Hi1, Hs1, He1, Hi, Hs, He. auto. }
  unfold dispatch_key.
  destruct (key t =? KEY_UP); [apply returns_ret; cbn; auto |].
  destruct ((key t =? KEY_DOWN) && nonempty containers) eqn:Hdown.
  { apply andb_prop in Hdown. destruct Hdown as [_ Hne].
    apply nonempty_true in Hne. apply returns_ret. cbn. intuition. }
  destruct (key_in (key t) "u" "U").
  { eapply returns_bind; [apply get_docker_containers_keeps |].
    intros [cs self1] (Hi & Hs & _ & He). cbn [fst snd] in *.
    apply returns_ret. cbn. rewrite Hi, Hs.
    split; [reflexivity |]. split; [auto |]. exact He. }
  destruct (key_in (key t) "s" "S"); [apply Hact; reflexivity |].
  destruct (key_in (key t) "x" "X" && nonempty containers).
  { destruct (_draw_footer_keeps
                (set_status_message self
                   "Stopping container, this may take a minute..."))
      as (Hi & Hs & He).
    destruct (_draw_footer _) as [self0 line]. cbn [fst] in *.
    apply Hact; assumption. }
  destruct (key_in (key t) "r" "R"); [apply Hact; reflexivity |].
  destruct (key_in (key t) "d" "D" && nonempty containers).
  { destruct (getitem containers (selected_index self)); [| apply returns_raise].
    destruct (_confirm_action (typed t)); [apply Hact; reflexivity |].
    apply returns_ret. cbn. auto. }
  destruct (key_in (key t) "n" "N" && nonempty containers).
  { destruct (getitem containers (selected_index self)); [| apply returns_raise].
    destruct (truthy (_get_new_name (typed t))); [apply Hact; reflexivity |].
    apply returns_ret. cbn. auto. }
  apply returns_ret. cbn. auto.
Qed.

Lemma idle_refresh_keeps (self : Monitor) (containers : list ContainerRecord.t)
    (t : Tick) :
  returns (idle_refresh self containers t)
    (fun r =>
       selected_index (fst r) = selected_index self
       /\ scroll_pos (fst r) = scroll_pos self
       /\ (docker_error (fst r) = docker_error self
           \/ (snd r = [] /\ unavailable (fst r) /\ ~ unavailable self))).
Proof.
  unfold idle_refresh. destruct (key t =? -1); [| apply returns_ret; cbn; auto].
  eapply returns_bind; [apply get_docker_containers_keeps |].
  intros [cs self1] (Hi & Hs & _ & He). apply returns_ret. cbn in *. auto.
Qed.

(** One pass of the loop, summed up. *)
Lemma loop_body_keeps (self : Monitor) (containers : list ContainerRecord.t)
    (t : Tick) :
  returns (loop_body self containers t)
    (fun next =>
       match next with
       | None => True
       | Some (self', containers') =>
           (selected_index self' = selected_index self
            \/ selected_index self' = Z.max 0 (selected_index self - 1)
            \/ (1 <= len containers
                /\ selected_index self'
                   = Z.min (len containers - 1) (selected_index self + 1)))
           /\ (0 <= selected_index self -> 0 <= scroll_pos self ->
               0 <= scroll_pos self')
           /\ (unavailable self -> docker_error self' = docker_error self)
       end).
Proof.
  unfold loop_body. destruct (key_in (key t) "q" "Q"); [exact I |].
  eapply returns_bind; [apply dispatch_key_keeps |].
  intros [self1 cs1] (Hs1 & Hi1 & He1). cbn [fst snd] in *.
  eapply returns_bind; [apply idle_refresh_keeps |].
  intros [self2 cs2] (Hi2 & Hs2 & He2). cbn [fst snd] in *.
  pose proof (render_keeps self2 (height t) cs2) as [Hi3 He3].
  pose proof (render_scroll_nonneg self2 (height t) cs2) as Hs3.
  destruct (render self2 (height t) cs2) as [self3 frame]. cbn [fst] in *.
  apply returns_ret. rewrite Hi3, He3, Hi2. split; [exact Hi1 |]. split.
  - intros Hi Hs. apply Hs3; [| lia]. rewrite Hi2. lia.
  - intros Hu. destruct He2 as [-> | (_ & _ & Hn2)].
    + destruct He1 as [-> | (_ & _ & Hn1)]; [reflexivity | contradiction].
    + exfalso. apply Hn2. unfold unavailable in *.
      destruct He1 as [-> | (_ & _ & Hn1)]; [exact Hu | contradiction].
Qed.

(** A property kept by every pass holds whenever a run is still looping. *)
Lemma iterate_invariant (Inv : Monitor -> list ContainerRecord.t -> Prop) :
  (forall self containers t, Inv self containers ->
     returns (loop_body self containers t)
       (fun next => match next with
                    | None => True
                    | Some (self', containers') => Inv self' containers'
                    end)) ->
  forall ticks self containers, Inv self containers ->
    returns (iterate self containers ticks)
      (fun exit => match exit with
                   | Break => True
                   | Looping self' containers' => Inv self' containers'
                   end).
Proof.
  intros Hstep. induction ticks as [| t rest IH]; intros self cs Hinv; cbn [iterate].
  - apply returns_ret. exact Hinv.
  - eapply returns_bind; [apply (Hstep _ _ t Hinv) |].
    intros [[self' cs'] |] H; [apply IH; exact H | apply returns_ret; exact I].
Qed.



(** ** The cursor *)

(** C10.  The selection never goes negative, nor does the scroll offset:
    every pass of the loop that continues (any key, navigation up on an empty
    list or at index 0 included, and any refresh) keeps both at 0 or above;
    so does the scroll adjustment on its own, for any viewport height; and
    so both are whenever a run from start-up is still looping. *)
Theorem cursor_never_negative :
  (forall self containers t self' containers',
      0 <= selected_index self -> 0 <= scroll_pos self ->
      outcome (loop_body self containers t) = Ok (Some (self', containers')) ->
      0 <= selected_index self' /\ 0 <= scroll_pos self')
  /\ (forall self list_height,
        0 <= selected_index self -> 0 <= scroll_pos self ->
        0 <= scroll_pos (adjust_scroll self list_height))
  /\ (forall ping startup ticks self containers,
        outcome (_app_loop (__init__ ping) startup ticks) = Ok (Looping self containers) ->
        0 <= selected_index self /\ 0 <= scroll_pos self).
Proof.
  assert (Step : forall self containers t,
             0 <= selected_index self /\ 0 <= scroll_pos self ->
             returns (loop_body self containers t)
               (fun next => match next with
                            | None => True
                            | Some (self', _) =>
                                0 <= selected_index self' /\ 0 <= scroll_pos self'
                            end)).
  { intros self cs t [Hi Hs].
    apply (returns_weaken _ _ _ (loop_body_keeps self cs t)).
    intros [[self' cs'] |] H; [| exact I].
    destruct H as (Hsel & Hscroll & _). split; [lia | auto]. }
  split; [| split].
  - intros self cs t self' cs' Hi Hs E.
    exact (returns_elim _ _ _ (Step self cs t (conj Hi Hs)) E).
  - exact adjust_scroll_nonneg.
  - intros ping startup ticks self cs E.
    assert (R : returns (_app_loop (__init__ ping) startup ticks)
                  (fun exit => match exit with
                               | Break => True
                               | Looping self' _ =>
                                   0 <= selected_index self' /\ 0 <= scroll_pos self'
                               end)).
    { unfold _app_loop.
      eapply returns_bind; [apply get_docker_containers_keeps |].
      intros [cs0 self0] (Hi & Hs & _). cbn [fst snd] in *.
      apply (iterate_invariant
               (fun self' _ => 0 <= selected_index self' /\ 0 <= scroll_pos self')).
      - intros self1 cs1 t H. apply Step. exact H.
      - rewrite Hi, Hs. cbn. lia. }
    exact (returns_elim _ _ _ R E).
Qed.

Lemma cursor_never_negative_witness :
  0 <= selected_index (mkMonitor None 0 0 "")
  /\ 0 <= scroll_pos (mkMonitor None 0 0 "").
Proof.
  apply (proj1 cursor_never_negative (__init__ (Ok tt)) [] (pass KEY_UP []) _ []).
  - cbn. lia.
  - cbn. lia.
  - reflexivity.
Defined.

(** ** The standing error *)

(** C5.  The standing error is set at start-up when the runtime cannot be
    reached, and by an enumeration that raises (which then returns nothing).
    Once it is set, a refresh returns the empty list, makes no external call
    and leaves the instance as it is; and no pass of the loop, hence no run
    of any length, changes the error. *)
Theorem standing_error_is_terminal :
  (forall e, unavailable (__init__ (Raise e)))
  /\ (forall self w containers self',
        outcome (get_docker_containers self w) = Ok (containers, self') ->
        docker_error self' <> docker_error self ->
        unavailable self' /\ containers = [])
  /\ (forall self w, unavailable self ->
        get_docker_containers self w = ret ([], self))
  /\ (forall self containers t self' containers',
        unavailable self ->
        outcome (loop_body self containers t) = Ok (Some (self', containers')) ->
        docker_error self' = docker_error self)
  /\ (forall self containers ticks self' containers',
        unavailable self ->
        outcome (iterate self containers ticks) = Ok (Looping self' containers') ->
        docker_error self' = docker_error self).
Proof.
  split; [| split; [| split; [| split]]].
  - intros e. reflexivity.
  - intros self w cs self' E Hne.
    pose proof (returns_elim _ _ _ (get_docker_containers_keeps self w) E)
      as (_ & _ & _ & [He | (Hcs & Hu & _)]); cbn [fst snd] in *.
    + contradiction.
    + split; assumption.
  - exact get_docker_containers_unavailable.
  - intros self cs t self' cs' Hu E.
    pose proof (returns_elim _ _ _ (loop_body_keeps self cs t) E) as (_ & _ & He).
    exact (He Hu).
  - intros self cs ticks self' cs' Hu E.
    assert (R : returns (iterate self cs ticks)
                  (fun exit => match exit with
                               | Break => True
                               | Looping s _ => docker_error s = docker_error self
                               end)).
    { apply (iterate_invariant (fun s _ => docker_error s = docker_error self));
        [| reflexivity].
      intros s c t Hs.
      apply (returns_weaken _ _ _ (loop_body_keeps s c t)).
      intros [[s' c'] |] H; [| exact I]. destruct H as (_ & _ & He).
      rewrite <- Hs. apply He. unfold unavailable in *. rewrite Hs. exact Hu. }
    exact (returns_elim _ _ _ R E).
Qed.

Lemma standing_error_is_terminal_witness :
  get_docker_containers (__init__ (Raise (OtherError "connection refused")))
    (world_of [alpha; bravo])
  = ret ([], __init__ (Raise (OtherError "connection refused")))
  /\ docker_error (__init__ (Raise (OtherError "connection refused")))
     = Some "Docker not available: connection refused".
Proof.
  split.
  - apply (proj1 (proj2 (proj2 standing_error_is_terminal))). reflexivity.
  - symmetry.
    apply (proj2 (proj2 (proj2 (proj2 standing_error_is_terminal)))
             (__init__ (Raise (OtherError "connection refused"))) []
             [pass (-1) [alpha; bravo]; pass KEY_DOWN [alpha; bravo];
              pass (ord "s") [alpha; bravo]]
             (__init__ (Raise (OtherError "connection refused"))) []);
      reflexivity.
Defined.

(** ** Selection and refresh *)

Lemma loop_body_up (self : Monitor) (containers : list ContainerRecord.t) (t : Tick) :
  key t = KEY_UP ->
  loop_body self containers t
  = ret (Some (fst (render (set_selected_index self
                              (Z.max 0 (selected_index self - 1)))
                      (height t) containers), containers)).
Proof.
  intros Hk. unfold loop_body, dispatch_key, idle_refresh. rewrite Hk.
  change (key_in KEY_UP "q" "Q") with false.
  change (KEY_UP =? KEY_UP) with true. change (KEY_UP =? -1) with false.
  cbn [bind ret].
  destruct (render _ (height t) containers) as [self' frame]. reflexivity.
Qed.

Lemma loop_body_down (self : Monitor) (containers : list ContainerRecord.t) (t : Tick) :
  key t = KEY_DOWN ->
  loop_body self containers t
  = ret (Some (fst (render
                      (if nonempty containers
                       then set_selected_index self
                              (Z.min (len containers - 1) (selected_index self + 1))
                       else self)
                      (height t) containers), containers)).
Proof.
  intros Hk. unfold loop_body, dispatch_key, idle_refresh. rewrite Hk.
  change (key_in KEY_DOWN "q" "Q") with false.
  change (KEY_DOWN =? KEY_UP) with false. change (KEY_DOWN =? KEY_DOWN) with true.
  change (KEY_DOWN =? -1) with false.
  change (key_in KEY_DOWN "u" "U") with false.
  change (key_in KEY_DOWN "s" "S") with false.
  change (key_in KEY_DOWN "x" "X") with false.
  change (key_in KEY_DOWN "r" "R") with false.
  change (key_in KEY_DOWN "d" "D") with false.
  change (key_in KEY_DOWN "n" "N") with false.
  destruct (nonempty containers); cbn [andb bind ret];
    destruct (render _ (height t) containers) as [self' frame]; reflexivity.
Qed.

(** Navigation from a valid selection stays valid, and on an empty list
    with the selection at 0 it changes nothing about the selection. *)
Lemma navigation_keeps_index_valid (self : Monitor)
    (containers : list ContainerRecord.t) (t : Tick) :
  key t = KEY_UP \/ key t = KEY_DOWN ->
  exists self',
    outcome (loop_body self containers t) = Ok (Some (self', containers))
    /\ (index_valid self containers -> index_valid self' containers)
    /\ (containers = [] -> selected_index self = 0 -> selected_index self' = 0).
Proof.
  intros [Hk | Hk].
  - rewrite (loop_body_up _ _ _ Hk). eexists. split; [reflexivity |].
    destruct (render_keeps
                (set_selected_index self (Z.max 0 (selected_index self - 1)))
                (height t) containers) as [Hi _].
    unfold index_valid. rewrite Hi. cbn. split; intros; lia.
  - rewrite (loop_body_down _ _ _ Hk). eexists. split; [reflexivity |].
    match goal with |- context [render ?s _ _] =>
      destruct (render_keeps s (height t) containers) as [Hi _] end.
    unfold index_valid. rewrite Hi.
    destruct containers as [| c cs]; cbn [nonempty].
    + split; [tauto | intros _ H; exact H].
    + cbn [selected_index set_selected_index]. split; [| discriminate].
      unfold len. cbn [List.length]. lia.
Qed.

(** C4.  The code at a refresh that shrinks the list: the selection is not
    clamped.  With three containers and the selection moved to index 2, an
    idle refresh that finds one container leaves the selection at 2 with a
    list of length 1; a further up key moves it to 1, still past the end;
    and a refresh that finds nothing leaves it at 2 on an empty list, where
    the up key then moves it. *)
Theorem refresh_leaves_selection_stale :
  (exists self containers,
      outcome (_app_loop (__init__ (Ok tt)) (world_of [alpha; bravo; charlie])
                 [pass KEY_DOWN [alpha; bravo; charlie];
                  pass KEY_DOWN [alpha; bravo; charlie]; pass (-1) [alpha]])
      = Ok (Looping self containers)
      /\ selected_index self = 2 /\ len containers = 1)
  /\ (exists self containers,
        outcome (_app_loop (__init__ (Ok tt)) (world_of [alpha; bravo; charlie])
                   [pass KEY_DOWN [alpha; bravo; charlie];
                  pass KEY_DOWN [alpha; bravo; charlie]; pass (-1) [alpha];
                    pass KEY_UP []])
        = Ok (Looping self containers)
        /\ selected_index self = 1 /\ len containers = 1)
  /\ (exists self self' containers,
        outcome (_app_loop (__init__ (Ok tt)) (world_of [alpha; bravo; charlie])
                   [pass KEY_DOWN [alpha; bravo; charlie];
                  pass KEY_DOWN [alpha; bravo; charlie]; pass (-1) []])
        = Ok (Looping self containers)
        /\ selected_index self = 2 /\ containers = []
        /\ outcome (loop_body self containers (pass KEY_UP []))
           = Ok (Some (self', containers))
        /\ selected_index self' = 1).
Proof.
  split; [| split].
  - eexists. eexists. split; [vm_compute; reflexivity | split; reflexivity].
  - eexists. eexists. split; [vm_compute; reflexivity | split; reflexivity].
  - eexists. eexists. eexists. split; [vm_compute; reflexivity |].
    split; [reflexivity |]. split; [reflexivity |].
    split; [vm_compute; reflexivity | reflexivity].
Qed.

(** C6.  The code once the selection is stale: the start key indexes the
    list outside the [try] of [_perform_action], and the delete key indexes
    it in the loop itself; the [IndexError] leaves the loop. *)
Theorem stale_selection_raises_out_of_loop :
  outcome (_app_loop (__init__ (Ok tt)) (world_of [alpha; bravo; charlie])
             [pass KEY_DOWN [alpha; bravo; charlie];
                  pass KEY_DOWN [alpha; bravo; charlie]; pass (-1) [alpha];
              pass (ord "s") [alpha]])
  = Raise (IndexError "list index out of range")
  /\ outcome (_app_loop (__init__ (Ok tt)) (world_of [alpha; bravo; charlie])
                [pass KEY_DOWN [alpha; bravo; charlie];
                  pass KEY_DOWN [alpha; bravo; charlie]; pass (-1) [alpha];
                 pass (ord "d") [alpha]])
     = Raise (IndexError "list index out of range").
Proof. split; vm_compute; reflexivity. Qed.

(** ** Building the records *)

(** The resolver never raises. *)
Lemma _get_host_port_from_iptables_succeeds
    (run : string -> result string) (ip port : string) :
  succeeds (_get_host_port_from_iptables run ip port).
Proof.
  unfold _get_host_port_from_iptables.
  destruct (negb (truthy ip) || negb (truthy port)); [apply succeeds_ret |].
  apply (succeeds_bind _ _ (fun _ => True)); [| apply returns_any |].
  - unfold succeeds, try_except, bind, external, outcome.
    destruct (run (iptables_command ip port)) as [output | e]; cbn.
    + destruct (truthy output); [| eexists; reflexivity].
      destruct (search_dport output); eexists; reflexivity.
    + destruct e; eexists; reflexivity.
  - intros [v |] _; apply succeeds_ret.
Qed.

Lemma port_entry_succeeds (run : string -> result string) (ip_addr : string)
    (item : string * option (list (option string))) :
  succeeds (port_entry run ip_addr item).
Proof.
  unfold port_entry. destruct item as [port_key info].
  apply (succeeds_bind _ _ (fun _ => True)); [| apply returns_any |].
  - match goal with |- context [if ?b then _ else _] => destruct b end;
      [apply _get_host_port_from_iptables_succeeds | apply succeeds_ret].
  - intros v _. destruct (negb (v =? "N/A")%string); apply succeeds_ret.
Qed.

Lemma for_each_succeeds {A B} (body : A -> M B) (xs : list A) :
  Forall (fun x => succeeds (body x)) xs -> succeeds (for_each body xs).
Proof.
  induction 1 as [| x xs Hx _ IH]; cbn [for_each]; [apply succeeds_ret |].
  apply (succeeds_bind _ _ (fun _ => True)); [exact Hx | apply returns_any |].
  intros y _.
  apply (succeeds_bind _ _ (fun _ => True)); [exact IH | apply returns_any |].
  intros ys _. apply succeeds_ret.
Qed.

Lemma for_each_length {A B} (body : A -> M B) (xs : list A) :
  returns (for_each body xs) (fun ys => List.length ys = List.length xs).
Proof.
  apply (returns_weaken _ _ _ (returns_for_each body (fun _ _ => True) xs
                                 (fun x => returns_any (body x)))).
  intros ys H. symmetry. exact (Forall2_length H).
Qed.

(** Port resolution never raises, whatever the NAT query does. *)
Lemma container_ports_succeeds (run : string -> result string)
    (container : Docker.Container) :
  succeeds (container_ports run container).
Proof.
  unfold container_ports. destruct (Docker.port_data container) as [| item rest];
    [apply succeeds_ret |].
  apply (succeeds_bind _ _ (fun _ => True)); [| apply returns_any |].
  - apply for_each_succeeds. apply Forall_forall. intros x _. apply port_entry_succeeds.
  - intros ports _. apply succeeds_ret.
Qed.

(** The memory statistic never raises: any failure of the snapshot reads
    "N/A". *)
Lemma _get_container_ram_stats_succeeds (container : Docker.Container) :
  succeeds (_get_container_ram_stats container)
  /\ ((exists e, Docker.stats container = Raise e) \/ Docker.stats container = Ok None ->
      outcome (_get_container_ram_stats container) = Ok "N/A").
Proof.
  split.
  - apply succeeds_try_except_all. intros e. apply succeeds_ret.
  - unfold _get_container_ram_stats, try_except, bind, external, outcome.
    intros [[e ->] | ->]; reflexivity.
Qed.

(** The uptime step answers "Error" on a missing or malformed timestamp,
    and raises on one without a UTC offset. *)
Lemma _get_container_uptime_failures (container : Docker.Container) :
  Docker.status container = "running" ->
  (Docker.started_at container = Docker.Missing ->
   _get_container_uptime container = ret "Error")
  /\ (Docker.started_at container = Docker.Malformed ->
      _get_container_uptime container = ret "Error")
  /\ (Docker.started_at container = Docker.Naive ->
      exists m, outcome (_get_container_uptime container) = Raise (TypeError m)).
Proof.
  intros Hs. unfold _get_container_uptime. rewrite Hs.
  split; [| split]; intros ->; cbn; [reflexivity | reflexivity |].
  eexists. reflexivity.
Qed.

Lemma _get_container_uptime_succeeds (container : Docker.Container) :
  Docker.status container <> "running" \/ Docker.started_at container <> Docker.Naive ->
  succeeds (_get_container_uptime container).
Proof.
  intros H. unfold _get_container_uptime.
  destruct (String.eqb_spec (Docker.status container) "running") as [Hs | Hs];
    [| eexists; reflexivity].
  destruct (Docker.started_at container); try (eexists; reflexivity).
  destruct H as [H | H]; contradiction.
Qed.

Lemma container_image_succeeds (container : Docker.Container) (image : Docker.Image) :
  Docker.image container = Ok image -> succeeds (container_image container).
Proof.
  intros Hi. unfold container_image, succeeds, bind, external, outcome. rewrite Hi.
  cbn. destruct (Docker.tags image); cbn; eexists; reflexivity.
Qed.

(** What a record carries over from its container. *)
Lemma container_record_fields (run : string -> result string)
    (container : Docker.Container) :
  returns (container_record run container)
    (fun entry =>
       ContainerRecord.name entry = Docker.name container
       /\ ContainerRecord.obj entry = container
       /\ outcome (container_ports run container) = Ok (ContainerRecord.ports entry)
       /\ outcome (_get_container_ram_stats container) = Ok (ContainerRecord.ram entry)
       /\ outcome (_get_container_uptime container) = Ok (ContainerRecord.uptime entry)).
Proof.
  unfold container_record.
  apply (returns_bind _ _ (fun p => outcome (container_ports run container) = Ok p)).
  { apply returns_self. }
  intros p Hp.
  apply (returns_bind _ _
           (fun r => outcome (_get_container_ram_stats container) = Ok r)).
  { apply returns_self. }
  intros r Hr.
  apply (returns_bind _ _ (fun _ => True)); [apply returns_any |]. intros i _.
  apply (returns_bind _ _
           (fun u => outcome (_get_container_uptime container) = Ok u)).
  { apply returns_self. }
  intros u Hu. apply returns_ret. cbn. auto.
Qed.

Lemma container_record_succeeds (run : string -> result string)
    (container : Docker.Container) :
  well_behaved container -> succeeds (container_record run container).
Proof.
  intros [[image Hi] Hu]. unfold container_record.
  apply (succeeds_bind _ _ (fun _ => True));
    [apply container_ports_succeeds | apply returns_any |]. intros p _.
  apply (succeeds_bind _ _ (fun _ => True));
    [apply _get_container_ram_stats_succeeds | apply returns_any |]. intros r _.
  apply (succeeds_bind _ _ (fun _ => True));
    [apply (container_image_succeeds _ _ Hi) | apply returns_any |]. intros i _.
  apply (succeeds_bind _ _ (fun _ => True));
    [apply (_get_container_uptime_succeeds _ Hu) | apply returns_any |]. intros u _.
  apply succeeds_ret.
Qed.

(** When every container is well behaved the refresh succeeds with one
    record per container, whatever the NAT query and the statistics calls
    did. *)
Lemma refresh_complete (self : Monitor) (w : World) (handles : list Docker.Container) :
  ~ unavailable self -> listing w = Ok handles -> Forall well_behaved handles ->
  exists records,
    outcome (get_docker_containers self w) = Ok (sorted records, self)
    /\ Forall2 (fun container entry =>
                  ContainerRecord.name entry = Docker.name container
                  /\ ContainerRecord.obj entry = container
                  /\ outcome (container_ports (run w) container)
                     = Ok (ContainerRecord.ports entry)
                  /\ outcome (_get_container_ram_stats container)
                     = Ok (ContainerRecord.ram entry)
                  /\ outcome (_get_container_uptime container)
                     = Ok (ContainerRecord.uptime entry))
         handles records.
Proof.
  intros Hu Hl Hw.
  assert (S : succeeds (for_each (container_record (run w)) handles)).
  { apply for_each_succeeds. revert Hw. apply Forall_impl.
    intros c. apply container_record_succeeds. }
  destruct S as [records E]. exists records. split.
  - unfold get_docker_containers, unavailable in *.
    destruct (truthy_opt (docker_error self)); [contradiction Hu; reflexivity |].
    rewrite Hl. unfold try_except, bind, external, outcome in *.
    destruct (for_each (container_record (run w)) handles) as [[rs | e] t];
      cbn in *; [| discriminate].
    injection E as ->. reflexivity.
  - exact (returns_elim _ _ _
             (returns_for_each _ _ handles (container_record_fields (run w))) E).
Qed.

(** A refresh that did not end with the standing error set went through the
    whole enumeration. *)
Lemma refresh_success_inv (self : Monitor) (w : World)
    (containers : list ContainerRecord.t) (self' : Monitor) :
  outcome (get_docker_containers self w) = Ok (containers, self') ->
  ~ unavailable self' ->
  exists handles records,
    listing w = Ok handles
    /\ outcome (for_each (container_record (run w)) handles) = Ok records
    /\ containers = sorted records /\ self' = self.
Proof.
  unfold get_docker_containers, unavailable.
  destruct (truthy_opt (docker_error self)) eqn:Hu.
  - cbn. intros [= <- <-] Hn. rewrite Hu in Hn. contradiction Hn. reflexivity.
  - unfold try_except, bind, external, outcome.
    destruct (listing w) as [handles | e]; cbn.
    + destruct (for_each (container_record (run w)) handles) as [[rs | e] t] eqn:E;
        cbn.
      * intros [= <- <-] _. exists handles, rs. rewrite E. auto.
      * intros [= <- <-] Hn. contradiction Hn. reflexivity.
    + intros [= <- <-] Hn. contradiction Hn. reflexivity.
Qed.

(** C3.  The code when the uptime step fails outside its handler.  The
    second of three containers is running with a start timestamp that has
    no UTC offset; the [TypeError] from the subtraction is not among the
    exceptions [_get_container_uptime] takes, so it ends the enumeration:
    no record is returned for any container, and the standing error is
    set. *)
Theorem uptime_failure_aborts_enumeration :
  outcome (get_docker_containers (__init__ (Ok tt))
             (world_of [alpha; drifting; charlie]))
  = Ok ([], set_docker_error (__init__ (Ok tt))
              "Docker error: can't subtract offset-naive and offset-aware datetimes")
  /\ exists records,
       outcome (get_docker_containers (__init__ (Ok tt))
                  (world_of [alpha; charlie]))
       = Ok (records, __init__ (Ok tt))
       /\ names records = ["alpha"; "charlie"].
Proof.
  split; [vm_compute; reflexivity |].
  eexists. split; [vm_compute; reflexivity | reflexivity].
Qed.

(** ** Order of the inventory *)

Lemma ascii_compare_refl (a : ascii) : Ascii.compare a a = Eq.
Proof. unfold Ascii.compare. apply N.compare_refl. Qed.

Lemma str_le_trans (a b c : string) : str_le a b -> str_le b c -> str_le a c.
Proof.
  unfold str_le, String.leb. revert b c.
  induction a as [| x a IH]; intros [| y b] [| z c]; cbn; try congruence.
  destruct (Ascii.compare x y) eqn:Exy; [| | congruence].
  - apply Ascii.compare_eq_iff in Exy. subst y.
    destruct (Ascii.compare x z); [apply IH | congruence | congruence].
  - destruct (Ascii.compare y z) eqn:Eyz; [| | congruence].
    + apply Ascii.compare_eq_iff in Eyz. subst z. rewrite Exy. congruence.
    + unfold Ascii.compare in *. rewrite N.compare_lt_iff in Exy, Eyz.
      assert (L : (N_of_ascii x < N_of_ascii z)%N) by lia.
      apply N.compare_lt_iff in L. rewrite L. congruence.
Qed.

Lemma str_le_total (a b : string) : str_le a b \/ str_le b a.
Proof. apply String.leb_total. Qed.

Lemma str_le_antisym (a b : string) : str_le a b -> str_le b a -> a = b.
Proof. apply String.leb_antisym. Qed.

Lemma name_le_trans : Relations_1.Transitive name_le.
Proof. intros a b c. unfold name_le. apply str_le_trans. Qed.

Lemma insert_by_name_perm (c : ContainerRecord.t) (l : list ContainerRecord.t) :
  Permutation (insert_by_name c l) (c :: l).
Proof.
  induction l as [| d l IH]; cbn [insert_by_name]; [reflexivity |].
  destruct (String.leb _ _); [reflexivity |].
  rewrite IH. apply perm_swap.
Qed.

Lemma sorted_perm (l : list ContainerRecord.t) : Permutation (sorted l) l.
Proof.
  induction l as [| c l IH]; cbn [sorted]; [reflexivity |].
  rewrite insert_by_name_perm. constructor. exact IH.
Qed.

Lemma insert_by_name_sorted (c : ContainerRecord.t) (l : list ContainerRecord.t) :
  Sorted name_le l -> Sorted name_le (insert_by_name c l).
Proof.
  induction 1 as [| d l Hl IH Hd]; cbn [insert_by_name].
  - repeat constructor.
  - destruct (String.leb (ContainerRecord.name c) (ContainerRecord.name d)) eqn:E.
    + constructor; [constructor; assumption | constructor; exact E].
    + assert (Hdc : name_le d c).
      { destruct (str_le_total (ContainerRecord.name c) (ContainerRecord.name d)) as [H | H];
          [unfold str_le in H; congruence | exact H]. }
      constructor; [exact IH |].
      destruct l as [| e l]; cbn [insert_by_name].
      * constructor. exact Hdc.
      * destruct (String.leb (ContainerRecord.name c) (ContainerRecord.name e));
          constructor; [exact Hdc | inversion Hd; assumption].
Qed.

Lemma sorted_is_sorted (l : list ContainerRecord.t) : StronglySorted name_le (sorted l).
Proof.
  apply Sorted_StronglySorted; [exact name_le_trans |].
  induction l as [| c l IH]; cbn [sorted]; [constructor |].
  apply insert_by_name_sorted. exact IH.
Qed.

(** Python's [sorted] is stable: entries of equal name keep their order.
    Inserting in front of the first entry that is not smaller does that. *)
Lemma insert_by_name_stable (name : string) (c : ContainerRecord.t)
    (l : list ContainerRecord.t) :
  filter (fun d => (ContainerRecord.name d =? name)%string) (insert_by_name c l)
  = filter (fun d => (ContainerRecord.name d =? name)%string) (c :: l).
Proof.
  induction l as [| d l IH]; cbn [insert_by_name]; [reflexivity |].
  destruct (String.leb (ContainerRecord.name c) (ContainerRecord.name d)) eqn:E;
    [reflexivity |].
  cbn [filter] in *. rewrite IH.
  destruct (String.eqb_spec (ContainerRecord.name c) name) as [Hc | Hc];
    destruct (String.eqb_spec (ContainerRecord.name d) name) as [Hd | Hd];
    try reflexivity.
  exfalso. rewrite Hc, Hd in E.
  destruct (str_le_total name name) as [H | H]; unfold str_le in H; congruence.
Qed.

Lemma sorted_stable (name : string) (l : list ContainerRecord.t) :
  filter (fun d => (ContainerRecord.name d =? name)%string) (sorted l)
  = filter (fun d => (ContainerRecord.name d =? name)%string) l.
Proof.
  induction l as [| c l IH]; cbn [sorted]; [reflexivity |].
  rewrite insert_by_name_stable. cbn [filter]. rewrite IH. reflexivity.
Qed.

(** Two lists of strings in ascending order with the same elements are
    equal. *)
Lemma sorted_strings_unique (l1 l2 : list string) :
  StronglySorted str_le l1 -> StronglySorted str_le l2 -> Permutation l1 l2 ->
  l1 = l2.
Proof.
  intros S1. revert l2. induction S1 as [| a l1 S1 IH Ha]; intros l2 S2 P.
  - apply Permutation_nil in P. subst. reflexivity.
  - destruct S2 as [| b l2 S2 Hb].
    + apply Permutation_sym, Permutation_nil in P. discriminate.
    + assert (E : a = b).
      { assert (Iab : In a (b :: l2)) by (apply (Permutation_in _ P); left; reflexivity).
        assert (Iba : In b (a :: l1))
          by (apply (Permutation_in _ (Permutation_sym P)); left; reflexivity).
        destruct Iab as [Eab | Iab]; [congruence |].
        destruct Iba as [Eba | Iba]; [congruence |].
        rewrite Forall_forall in Ha, Hb.
        apply str_le_antisym; [apply Ha; exact Iba | apply Hb; exact Iab]. }
      subst b. f_equal. apply IH; [exact S2 |].
      exact (Permutation_cons_inv P).
Qed.

Lemma names_sorted (l : list ContainerRecord.t) :
  StronglySorted name_le l -> StronglySorted str_le (names l).
Proof.
  induction 1 as [| c l S IH Hc]; cbn; constructor; [exact IH |].
  apply Forall_map. exact Hc.
Qed.

Lemma for_each_names (run : string -> result string)
    (handles : list Docker.Container) (records : list ContainerRecord.t) :
  outcome (for_each (container_record run) handles) = Ok records ->
  names records = handle_names handles.
Proof.
  intros E.
  pose proof (returns_elim _ _ _
                (returns_for_each _ _ handles (container_record_fields run)) E) as F.
  clear E. unfold names, handle_names.
  induction F as [| c r hs rs (Hn & _) _ IH]; cbn [map]; [reflexivity |].
  rewrite Hn, IH. reflexivity.
Qed.

Lemma get_docker_containers_sorted (self : Monitor) (w : World) :
  returns (get_docker_containers self w)
    (fun r => StronglySorted name_le (fst r)).
Proof.
  unfold get_docker_containers.
  destruct (truthy_opt (docker_error self)); [apply returns_ret; constructor |].
  apply returns_try_except.
  - apply (returns_bind _ _ (fun _ => True)); [apply returns_any |]. intros hs _.
    apply (returns_bind _ _ (fun _ => True)); [apply returns_any |]. intros rs _.
    apply returns_ret. apply sorted_is_sorted.
  - intros e k [= <-]. apply returns_ret. constructor.
Qed.

(** C8.  Every list a refresh returns is in ascending order of name
    ([str] comparison).  When the refresh went through, the names returned
    are those of the containers enumerated; and two refreshes that went
    through over the same set of (distinct) names return the names in the
    same order, position by position. *)
Theorem inventory_sorted_by_name :
  (forall self w containers self',
      outcome (get_docker_containers self w) = Ok (containers, self') ->
      StronglySorted name_le containers)
  /\ (forall self w containers self',
        outcome (get_docker_containers self w) = Ok (containers, self') ->
        ~ unavailable self' ->
        exists handles,
          listing w = Ok handles
          /\ Permutation (names containers) (handle_names handles))
  /\ (forall self1 w1 containers1 self1' self2 w2 containers2 self2' handles1 handles2,
        outcome (get_docker_containers self1 w1) = Ok (containers1, self1') ->
        ~ unavailable self1' ->
        outcome (get_docker_containers self2 w2) = Ok (containers2, self2') ->
        ~ unavailable self2' ->
        listing w1 = Ok handles1 -> listing w2 = Ok handles2 ->
        NoDup (handle_names handles1) -> NoDup (handle_names handles2) ->
        (forall n, In n (handle_names handles1) <-> In n (handle_names handles2)) ->
        names containers1 = names containers2).
Proof.
  assert (Names : forall self w containers self' handles,
             outcome (get_docker_containers self w) = Ok (containers, self') ->
             ~ unavailable self' -> listing w = Ok handles ->
             Permutation (names containers) (handle_names handles)).
  { intros self w cs self' hs E Hn Hl.
    destruct (refresh_success_inv _ _ _ _ E Hn) as (hs' & rs & Hl' & Er & -> & _).
    rewrite Hl in Hl'. injection Hl' as <-.
    rewrite <- (for_each_names _ _ _ Er). unfold names.
    apply Permutation_map. apply sorted_perm. }
  split; [| split].
  - intros self w cs self' E.
    exact (returns_elim _ _ _ (get_docker_containers_sorted self w) E).
  - intros self w cs self' E Hn.
    destruct (refresh_success_inv _ _ _ _ E Hn) as (hs & rs & Hl & _).
    exists hs. split; [exact Hl |]. exact (Names _ _ _ _ _ E Hn Hl).
  - intros self1 w1 cs1 self1' self2 w2 cs2 self2' hs1 hs2
           E1 Hn1 E2 Hn2 Hl1 Hl2 D1 D2 Same.
    apply sorted_strings_unique.
    + apply names_sorted.
      exact (returns_elim _ _ _ (get_docker_containers_sorted self1 w1) E1).
    + apply names_sorted.
      exact (returns_elim _ _ _ (get_docker_containers_sorted self2 w2) E2).
    + rewrite (Names _ _ _ _ _ E1 Hn1 Hl1), (Names _ _ _ _ _ E2 Hn2 Hl2).
      apply NoDup_Permutation; assumption.
Qed.

Lemma inventory_sorted_by_name_witness :
  exists containers1 containers2,
    names containers1 = ["alpha"; "bravo"; "charlie"]
    /\ StronglySorted name_le containers1
    /\ names containers1 = names containers2.
Proof.
  eexists. eexists.
  assert (E1 : outcome (get_docker_containers (__init__ (Ok tt))
                          (world_of [charlie; alpha; bravo]))
               = Ok (sorted (map (fun c => ContainerRecord.mk (Docker.short_id c)
                                    (Docker.name c) (Docker.status c) "nginx:latest"
                                    "N/A"
                                    (if (Docker.name c =? "alpha")%string then "1h1m"
                                     else if (Docker.name c =? "bravo")%string then "N/A"
                                     else "59s")
                                    "1.00G" c)
                               [charlie; alpha; bravo]),
                     __init__ (Ok tt)))
    by (vm_compute; reflexivity).
  assert (E2 : outcome (get_docker_containers (__init__ (Ok tt))
                          (world_of [bravo; charlie; alpha]))
               = Ok (sorted (map (fun c => ContainerRecord.mk (Docker.short_id c)
                                    (Docker.name c) (Docker.status c) "nginx:latest"
                                    "N/A"
                                    (if (Docker.name c =? "alpha")%string then "1h1m"
                                     else if (Docker.name c =? "bravo")%string then "N/A"
                                     else "59s")
                                    "1.00G" c)
                               [bravo; charlie; alpha]),
                     __init__ (Ok tt)))
    by (vm_compute; reflexivity).
  split; [| split].
  2: exact (proj1 inventory_sorted_by_name _ _ _ _ E1).
  2: { apply (proj2 (proj2 inventory_sorted_by_name) _ _ _ _ _ _ _ _
                [charlie; alpha; bravo] [bravo; charlie; alpha] E1
                ltac:(cbn; discriminate) E2 ltac:(cbn; discriminate)
                eq_refl eq_refl).
       - repeat constructor; cbn; intuition discriminate.
       - repeat constructor; cbn; intuition discriminate.
       - intros n. cbn. tauto. }
  reflexivity.
Defined.

(** ** Ports *)

Lemma port_entry_reported (run : string -> result string) (ip_addr port_key : string)
    (info : option (list (option string))) :
  reported_host_port info <> "N/A" ->
  port_entry run ip_addr (port_key, info)
  = ret (reported_host_port info ++ "->" ++ split_slash_head port_key)%string.
Proof.
  intros H. unfold port_entry.
  destruct (String.eqb_spec (reported_host_port info) "N/A") as [E | _];
    [contradiction |].
  cbn [bind ret].
  destruct (String.eqb_spec (reported_host_port info) "N/A") as [E | _];
    [contradiction | reflexivity].
Qed.

Lemma port_entry_fallback (run : string -> result string) (ip_addr port_key : string)
    (info : option (list (option string))) (answer : string) :
  reported_host_port info = "N/A" ->
  outcome (_get_host_port_from_iptables run ip_addr (split_slash_head port_key))
  = Ok answer ->
  outcome (port_entry run ip_addr (port_key, info))
  = Ok (if (answer =? "N/A")%string
        then split_slash_head port_key
        else (answer ++ "->" ++ split_slash_head port_key)%string).
Proof.
  intros H E. unfold port_entry. rewrite H. cbn [String.eqb Ascii.eqb Bool.eqb].
  unfold bind, outcome in *.
  destruct (_get_host_port_from_iptables run ip_addr (split_slash_head port_key))
    as [[v | e] t]; cbn in E; [| discriminate].
  injection E as ->.
  destruct (answer =? "N/A")%string; reflexivity.
Qed.

(** C9, as the code has it.  In the scenario (port 80 declared without a
    host port, address 172.17.0.5, NAT rule for 54772) the record's ports
    field is "54772->80".  For one declared port: a host port reported by
    the runtime, or a port number found by the NAT lookup, gives
    "{hostPort}->{containerPort}"; a lookup that answers "N/A" gives the bare
    container port; a lookup that raised, and so answers "Error", gives
    "Error->{containerPort}".  The entries are joined with commas in the
    order declared, and a container with no declared port has "N/A". *)
Theorem ports_formatting :
  (exists entry,
      outcome (get_docker_containers (__init__ (Ok tt)) web_1_world)
      = Ok ([entry], __init__ (Ok tt))
      /\ ContainerRecord.ports entry = "54772->80")
  /\ (forall run ip_addr port_key info,
        reported_host_port info <> "N/A" ->
        port_entry run ip_addr (port_key, info)
        = ret (reported_host_port info ++ "->" ++ split_slash_head port_key)%string)
  /\ (forall run ip_addr port_key info output group1,
        reported_host_port info = "N/A" ->
        ip_addr <> "" -> split_slash_head port_key <> "" ->
        run (iptables_command ip_addr (split_slash_head port_key)) = Ok output ->
        search_dport output = Some group1 ->
        outcome (port_entry run ip_addr (port_key, info))
        = Ok (group1 ++ "->" ++ split_slash_head port_key)%string)
  /\ (forall run ip_addr port_key info,
        reported_host_port info = "N/A" ->
        outcome (_get_host_port_from_iptables run ip_addr (split_slash_head port_key))
        = Ok "N/A" ->
        outcome (port_entry run ip_addr (port_key, info))
        = Ok (split_slash_head port_key))
  /\ (forall run ip_addr port_key info,
        reported_host_port info = "N/A" ->
        outcome (_get_host_port_from_iptables run ip_addr (split_slash_head port_key))
        = Ok "Error" ->
        outcome (port_entry run ip_addr (port_key, info))
        = Ok ("Error->" ++ split_slash_head port_key)%string)
  /\ (forall run container,
        Docker.port_data container <> [] ->
        exists port_list,
          Forall2 (fun item part =>
                     outcome (port_entry run
                                (first_ip_addr (Docker.networks container)) item)
                     = Ok part)
            (Docker.port_data container) port_list
          /\ outcome (container_ports run container)
             = Ok (String.concat "," port_list))
  /\ (forall run container,
        Docker.port_data container = [] ->
        container_ports run container = ret "N/A").
Proof.
  split; [| split; [| split; [| split; [| split; [| split]]]]].
  - eexists. split; [vm_compute; reflexivity | reflexivity].
  - exact port_entry_reported.
  - intros run ip_addr port_key info output g Hr Hip Hport Hrun Hs.
    assert (Hfound : outcome (_get_host_port_from_iptables run ip_addr
                                (split_slash_head port_key)) = Ok g).
    { rewrite (nat_resolver_run run _ _ Hip Hport). unfold outcome. cbn [fst].
      rewrite Hrun, Hs. reflexivity. }
    rewrite (port_entry_fallback _ _ _ _ g Hr Hfound).
    destruct (String.eqb_spec g "N/A") as [-> | _]; [| reflexivity].
    apply search_dport_not_sentinel in Hs. tauto.
  - intros run ip_addr port_key info Hr E.
    rewrite (port_entry_fallback _ _ _ _ _ Hr E). reflexivity.
  - intros run ip_addr port_key info Hr E.
    rewrite (port_entry_fallback _ _ _ _ _ Hr E). reflexivity.
  - intros run container Hne. unfold container_ports.
    destruct (Docker.port_data container) as [| item rest] eqn:Hp;
      [contradiction |].
    set (ip_addr := first_ip_addr (Docker.networks container)).
    assert (S : succeeds (for_each (port_entry run ip_addr) (item :: rest))).
    { apply for_each_succeeds. apply Forall_forall. intros x _.
      apply port_entry_succeeds. }
    destruct S as [port_list E]. exists port_list. split.
    + exact (returns_elim _ _ _
               (returns_for_each _ _ (item :: rest)
                  (fun x => returns_self (port_entry run ip_addr x))) E).
    + unfold bind, outcome in *.
      destruct (for_each (port_entry run ip_addr) (item :: rest)) as [[ps | e] t];
        cbn in *; [| discriminate].
      injection E as ->. reflexivity.
  - intros run container Hp. unfold container_ports. rewrite Hp. reflexivity.
Qed.

Lemma ports_formatting_witness :
  port_entry (Shell.run Shell.Failed) "172.17.0.5"
    ("8080/tcp", Some [Some "8080"])
  = ret "8080->8080".
Proof.
  apply (proj1 (proj2 ports_formatting) (Shell.run Shell.Failed) "172.17.0.5"
           "8080/tcp" (Some [Some "8080"])).
  cbn. discriminate.
Defined.

(** C9 as stated fails on a port left unresolved because the lookup raised:
    the field reads "Error->80", not the bare "80". *)
Lemma unresolved_port_after_error :
  exists entry,
    outcome (get_docker_containers (__init__ (Ok tt)) no_shell_world)
    = Ok ([entry], __init__ (Ok tt))
    /\ ContainerRecord.ports entry = "Error->80"
    /\ ContainerRecord.ports entry <> "80".
Proof.
  eexists. split; [vm_compute; reflexivity |]. split; [reflexivity | discriminate].
Qed.

(** ** Drawing a frame *)

Lemma _draw_footer_status (self : Monitor) :
  status_message (fst (_draw_footer self))
  = (if contains "Successfully" (status_message self)
        || contains "Error" (status_message self)
     then "" else status_message self)
  /\ (status_message (fst (_draw_footer self)) <> status_message self ->
      snd (_draw_footer self) = Some ("Status: " ++ status_message self)%string).
Proof.
  unfold _draw_footer. destruct (truthy (status_message self)) eqn:T.
  - destruct (contains "Successfully" (status_message self)
              || contains "Error" (status_message self)); cbn [fst snd];
      split; [reflexivity | reflexivity | reflexivity | congruence].
  - apply truthy_false in T. cbn [fst snd]. rewrite T. cbn.
    split; [reflexivity | congruence].
Qed.

(** C7, as the code has it.  Drawing a frame leaves the selection (and the
    standing error) as they are.  The status message is emptied exactly when
    it contains "Successfully" or "Error", and then it has been painted.
    The scroll offset is left alone when the standing error is set or the
    list is empty; otherwise drawing the list is what moves it: with at
    least one row in the viewport it stays put when the selection is
    visible, and else becomes the nearest offset that shows the selection. *)
Theorem render_effects (self : Monitor) (height : Z)
    (containers : list ContainerRecord.t) :
  let self' := fst (render self height containers) in
  let list_height := height - 12 in
  selected_index self' = selected_index self
  /\ docker_error self' = docker_error self
  /\ status_message self'
     = (if contains "Successfully" (status_message self)
           || contains "Error" (status_message self)
        then "" else status_message self)
  /\ (status_message self' <> status_message self ->
      status_line (snd (render self height containers))
      = Some ("Status: " ++ status_message self)%string)
  /\ (unavailable self \/ containers = [] -> scroll_pos self' = scroll_pos self)
  /\ (~ unavailable self -> containers <> [] -> 1 <= list_height ->
      (scroll_pos self <= selected_index self < scroll_pos self + list_height ->
       scroll_pos self' = scroll_pos self)
      /\ (selected_index self < scroll_pos self ->
          scroll_pos self' = selected_index self)
      /\ (scroll_pos self + list_height <= selected_index self ->
          scroll_pos self' = selected_index self - list_height + 1)
      /\ scroll_pos self' <= selected_index self < scroll_pos self' + list_height).
Proof.
  cbn zeta.
  pose proof (render_keeps self height containers) as [Hi He].
  pose proof (render_scroll self height containers) as Hs.
  assert (Hm : status_message (fst (render self height containers))
               = (if contains "Successfully" (status_message self)
                     || contains "Error" (status_message self)
                  then "" else status_message self)
               /\ (status_message (fst (render self height containers))
                   <> status_message self ->
                   status_line (snd (render self height containers))
                   = Some ("Status: " ++ status_message self)%string)).
  { unfold render.
    destruct (_draw_container_list_keeps self height containers) as (_ & _ & Hm).
    destruct (_draw_container_list self height containers) as [self1 table].
    cbn [fst] in Hm.
    destruct (_draw_footer_status self1) as [H1 H2].
    destruct (_draw_footer self1) as [self2 line]. cbn [fst snd] in *.
    rewrite Hm in H1, H2. split; assumption. }
  destruct Hm as [Hm1 Hm2].
  split; [exact Hi |]. split; [exact He |]. split; [exact Hm1 |].
  split; [exact Hm2 |]. split.
  - intros [Hu | ->]; rewrite Hs.
    + unfold unavailable in Hu. rewrite Hu. reflexivity.
    + rewrite orb_true_r. reflexivity.
  - intros Hu Hne Hh. rewrite Hs.
    unfold unavailable in Hu. apply not_true_is_false in Hu. rewrite Hu.
    destruct containers as [| c cs]; [contradiction |]. cbn [nonempty negb orb].
    rewrite adjust_scroll_value. cbn zeta.
    destruct (Z.geb_spec (selected_index self)
                (Z.min (scroll_pos self) (selected_index self) + (height - 12)));
      repeat split; intros; lia.
Qed.

Lemma render_effects_witness :
  scroll_pos (fst (render on_last_row 15 six_records)) = 3.
Proof.
  refine (proj1 (proj2 (proj2
            (proj2 (proj2 (proj2 (proj2 (proj2
               (render_effects on_last_row 15 six_records)))))
              _ _ _))) _);
    cbn; try lia; discriminate.
Defined.

(** C7 as stated fails for the scroll offset: drawing six rows on a
    terminal with three list lines, the selection on the last row, moves the
    offset from 0 to 3. *)
Lemma render_moves_scroll_offset :
  scroll_pos on_last_row = 0
  /\ scroll_pos (fst (render on_last_row 15 six_records)) = 3.
Proof. split; reflexivity. Qed.

(** ** The resolver over the shell pipeline *)

(** Whatever happens inside the pipeline, [subprocess.run] sees an exit
    status: the only exception is [CalledProcessError]. *)
Lemma shell_run_raises_exit_status (save : Shell.iptables_save) (command : string)
    (e : exn) :
  Shell.run save command = Raise e -> exists rc m, e = CalledProcessError rc m.
Proof.
  unfold Shell.run, Shell.pipeline.
  destruct (strip_prefix _ command) as [quoted |];
    [| intros [= <-]; eexists; eexists; reflexivity].
  destruct (Shell.strip_last_quote quoted) as [pattern |];
    [| intros [= <-]; eexists; eexists; reflexivity].
  destruct (contains "'" pattern); [intros [= <-]; eexists; eexists; reflexivity |].
  destruct (filter _ _); [intros [= <-]; eexists; eexists; reflexivity | discriminate].
Qed.

(** So with the command run by the shell, the resolver never answers
    "Error": a refused [sudo] or a missing tool reads as "no rule". *)
Lemma resolver_over_shell_never_errors (save : Shell.iptables_save) (ip port : string) :
  outcome (_get_host_port_from_iptables (Shell.run save) ip port) <> Ok "Error".
Proof.
  destruct (string_dec ip "") as [-> | Hip]; [cbn; discriminate |].
  destruct (string_dec port "") as [-> | Hport].
  - unfold _get_host_port_from_iptables. rewrite orb_true_r. cbn. discriminate.
  - rewrite (nat_resolver_run _ _ _ Hip Hport). unfold outcome. cbn [fst].
    destruct (Shell.run save (iptables_command ip port)) as [output | e] eqn:E.
    + destruct (search_dport output) as [g |] eqn:Hs; [| discriminate].
      intros [= ->]. apply search_dport_not_sentinel in Hs. tauto.
    + destruct (shell_run_raises_exit_status _ _ _ E) as (rc & m & ->). discriminate.
Qed.

Lemma append_empty_r (s : string) : (s ++ "")%string = s.
Proof. induction s as [| c s IH]; cbn; [reflexivity | rewrite IH; reflexivity]. Qed.

Lemma strip_last_quote_app (a b : string) :
  b <> "" ->
  Shell.strip_last_quote (a ++ b)
  = match Shell.strip_last_quote b with
    | Some r => Some (a ++ r)%string
    | None => None
    end.
Proof.
  intros Hb. induction a as [| c a IH].
  - cbn. destruct (Shell.strip_last_quote b); reflexivity.
  - cbn [append]. cbn [Shell.strip_last_quote].
    destruct (a ++ b)%string as [| x r] eqn:E.
    + destruct a; [cbn in E; contradiction | discriminate E].
    + rewrite IH. destruct (Shell.strip_last_quote b); reflexivity.
Qed.

Lemma append_assoc (a b c : string) : ((a ++ b) ++ c = a ++ (b ++ c))%string.
Proof. induction a as [| x a IH]; cbn; [reflexivity | rewrite IH; reflexivity]. Qed.

Lemma strip_prefix_app (p s : string) : strip_prefix p (p ++ s) = Some s.
Proof.
  induction p as [| c p IH]; cbn; [destruct s; reflexivity |].
  rewrite Ascii.eqb_refl. exact IH.
Qed.

Lemma strip_last_quote_snoc (s : string) : Shell.strip_last_quote (s ++ "'") = Some s.
Proof.
  rewrite strip_last_quote_app by discriminate. cbn. rewrite append_empty_r.
  reflexivity.
Qed.

Lemma iptables_command_shape (ip port : string) :
  iptables_command ip port
  = ("sudo iptables-save | grep '" ++ (iptables_pattern ip port ++ "'"))%string.
Proof.
  unfold iptables_command, iptables_pattern. cbn [append].
  rewrite !append_assoc. reflexivity.
Qed.

(** The command line of line 51 reaches [grep] with [iptables_pattern],
    unless a quote in the address or the port breaks the quoting. *)
Lemma shell_run_command (save : Shell.iptables_save) (ip port : string) :
  Shell.run save (iptables_command ip port)
  = if contains "'" (iptables_pattern ip port)
    then Raise (CalledProcessError 2 "sh: syntax error")
    else Shell.pipeline save (iptables_pattern ip port).
Proof.
  unfold Shell.run.
  rewrite iptables_command_shape, strip_prefix_app, strip_last_quote_snoc.
  reflexivity.
Qed.

(** When the dump ran and [grep] selects none of its rules, the answer is
    "N/A". *)
Lemma resolver_no_matching_rule (rules : list string) (ip port : string) :
  ip <> "" -> port <> "" ->
  filter (Shell.grep_selects (iptables_pattern ip port)) rules = [] ->
  outcome (_get_host_port_from_iptables (Shell.run (Shell.Dumped rules)) ip port)
  = Ok "N/A".
Proof.
  intros Hip Hport Hnone.
  rewrite (nat_resolver_run _ _ _ Hip Hport). unfold outcome. cbn [fst].
  rewrite shell_run_command.
  destruct (contains "'" (iptables_pattern ip port)); [reflexivity |].
  unfold Shell.pipeline. rewrite Hnone. reflexivity.
Qed.

(** * Further properties of the code *)

(** ** Refresh *)

(** Any exception inside the enumeration (the listing itself, or the
    building of any one record) ends it: the list returned is empty and the
    standing error becomes "Docker error: " followed by the exception's
    text, the other attributes staying as they were. *)
Theorem refresh_failure_sets_standing_error (self : Monitor) (w : World) (e : exn) :
  ~ unavailable self ->
  listing w = Raise e
  \/ (exists handles,
        listing w = Ok handles
        /\ outcome (for_each (container_record (run w)) handles) = Raise e) ->
  outcome (get_docker_containers self w)
  = Ok ([], set_docker_error self ("Docker error: " ++ str_of_exn e)%string).
Proof.
  intros Hu H. unfold get_docker_containers, unavailable in *.
  destruct (truthy_opt (docker_error self)); [contradiction Hu; reflexivity |].
  unfold try_except, bind, external, outcome in *.
  destruct H as [-> | (handles & -> & E)]; [reflexivity |].
  destruct (for_each (container_record (run w)) handles) as [[rs | e'] t];
    cbn in *; [discriminate |].
  injection E as ->. reflexivity.
Qed.

Lemma refresh_failure_sets_standing_error_witness :
  outcome (get_docker_containers (__init__ (Ok tt))
             (mkWorld (Raise (OtherError "Read timed out."))
                (Shell.run (Shell.Dumped []))))
  = Ok ([], set_docker_error (__init__ (Ok tt)) "Docker error: Read timed out.").
Proof.
  apply (refresh_failure_sets_standing_error (__init__ (Ok tt)) _
           (OtherError "Read timed out.")).
  - cbn. discriminate.
  - left. reflexivity.
Defined.

(** When every container is well behaved (its image can be read, and if it
    is running its start timestamp is not one without offset), the refresh
    returns one record per container, whatever the NAT queries and the
    statistics calls did: a failed statistics call shows as "N/A" memory, a
    missing or malformed start timestamp as "Error" uptime, a container that
    is not running as "N/A" uptime. *)
Theorem refresh_isolates_field_failures (self : Monitor) (w : World)
    (handles : list Docker.Container) :
  ~ unavailable self -> listing w = Ok handles -> Forall well_behaved handles ->
  exists records,
    outcome (get_docker_containers self w) = Ok (sorted records, self)
    /\ Forall2 (fun container entry =>
                  ContainerRecord.name entry = Docker.name container
                  /\ ContainerRecord.obj entry = container
                  /\ ((exists e, Docker.stats container = Raise e) ->
                      ContainerRecord.ram entry = "N/A")
                  /\ (Docker.status container <> "running" ->
                      ContainerRecord.uptime entry = "N/A")
                  /\ (Docker.status container = "running" ->
                      Docker.started_at container = Docker.Missing
                      \/ Docker.started_at container = Docker.Malformed ->
                      ContainerRecord.uptime entry = "Error"))
         handles records.
Proof.
  intros Hu Hl Hw.
  destruct (refresh_complete self w handles Hu Hl Hw) as (records & E & F).
  exists records. split; [exact E |].
  revert F. apply Forall2_impl. intros c r (Hn & Ho & _ & Hr & Hup).
  split; [exact Hn |]. split; [exact Ho |]. split; [| split].
  - intros Hs.
    destruct (_get_container_ram_stats_succeeds c) as [_ Hna].
    rewrite (Hna (or_introl Hs)) in Hr. congruence.
  - intros Hs. unfold _get_container_uptime in Hup.
    destruct (String.eqb_spec (Docker.status c) "running") as [Hc | _];
      [contradiction |].
    cbn in Hup. congruence.
  - intros Hs Hm.
    destruct (_get_container_uptime_failures c Hs) as (H1 & H2 & _).
    destruct Hm as [Hm | Hm]; [rewrite (H1 Hm) in Hup | rewrite (H2 Hm) in Hup];
      cbn in Hup; congruence.
Qed.

Lemma refresh_isolates_field_failures_witness :
  exists records,
    outcome (get_docker_containers (__init__ (Ok tt))
               (world_of [Docker.mkContainer "0123456789ab" "worker" "running"
                            (Ok (Docker.mkImage [] "sha256:abcd")) []
                            [("80/tcp", None)] Docker.Malformed
                            (Raise (OtherError "stats unavailable")) no_lifecycle]))
    = Ok (sorted records, __init__ (Ok tt))
    /\ map ContainerRecord.uptime records = ["Error"]
    /\ map ContainerRecord.ram records = ["N/A"].
Proof.
  destruct (refresh_isolates_field_failures (__init__ (Ok tt))
              (world_of [Docker.mkContainer "0123456789ab" "worker" "running"
                           (Ok (Docker.mkImage [] "sha256:abcd")) []
                           [("80/tcp", None)] Docker.Malformed
                           (Raise (OtherError "stats unavailable")) no_lifecycle])
              _ ltac:(cbn; discriminate) eq_refl)
    as (records & E & F).
  - constructor; [| constructor]. split; [eexists; reflexivity |].
    right. cbn. discriminate.
  - exists records. split; [exact E |].
    inversion F as [| c r hs rs (_ & _ & Hram & _ & Hup) F' E1 E2]; subst.
    inversion F'; subst. cbn [map].
    rewrite (Hup eq_refl (or_intror eq_refl)).
    rewrite (Hram (ex_intro _ _ eq_refl)). split; reflexivity.
Defined.

(** A refresh never raises, and it changes neither the selection, nor the
    scroll offset, nor the status message. *)
Theorem refresh_keeps_cursor_and_message (self : Monitor) (w : World) :
  exists containers self',
    outcome (get_docker_containers self w) = Ok (containers, self')
    /\ selected_index self' = selected_index self
    /\ scroll_pos self' = scroll_pos self
    /\ status_message self' = status_message self.
Proof.
  destruct (get_docker_containers_succeeds self w) as [[cs self'] E].
  exists cs, self'. split; [exact E |].
  pose proof (returns_elim _ _ _ (get_docker_containers_keeps self w) E)
    as (Hi & Hs & Hm & _).
  cbn [fst snd] in *. auto.
Qed.

Lemma for_each_objects (run : string -> result string)
    (handles : list Docker.Container) (records : list ContainerRecord.t) :
  outcome (for_each (container_record run) handles) = Ok records ->
  map ContainerRecord.obj records = handles.
Proof.
  intros E.
  pose proof (returns_elim _ _ _
                (returns_for_each _ _ handles (container_record_fields run)) E) as F.
  clear E. induction F as [| c r hs rs (_ & Ho & _) _ IH]; cbn [map]; [reflexivity |].
  rewrite Ho, IH. reflexivity.
Qed.

(** A refresh that went through returns exactly the containers the runtime
    listed: each one once, none left out. *)
Theorem refresh_returns_every_container (self : Monitor) (w : World)
    (containers : list ContainerRecord.t) (self' : Monitor) :
  outcome (get_docker_containers self w) = Ok (containers, self') ->
  ~ unavailable self' ->
  exists handles,
    listing w = Ok handles
    /\ Permutation (map ContainerRecord.obj containers) handles
    /\ List.length containers = List.length handles.
Proof.
  intros E Hn.
  destruct (refresh_success_inv _ _ _ _ E Hn) as (hs & rs & Hl & Er & -> & _).
  exists hs. split; [exact Hl |].
  assert (P : Permutation (map ContainerRecord.obj (sorted rs)) hs).
  { rewrite <- (for_each_objects _ _ _ Er). apply Permutation_map. apply sorted_perm. }
  split; [exact P |].
  rewrite <- (Permutation_length P). rewrite length_map. reflexivity.
Qed.

Lemma refresh_returns_every_container_witness :
  exists containers handles,
    listing (world_of [charlie; alpha]) = Ok handles
    /\ Permutation (map ContainerRecord.obj containers) handles
    /\ List.length containers = List.length handles.
Proof.
  eexists.
  eapply (refresh_returns_every_container (__init__ (Ok tt))
            (world_of [charlie; alpha]) _ (__init__ (Ok tt))).
  - vm_compute. reflexivity.
  - cbn. discriminate.
Defined.

(** ** Data fetching *)

(** The memory statistic makes the one statistics call, never raises, and
    reads "N/A" whenever the call raised or the snapshot has no usage
    figure. *)
Theorem ram_stats_failure_reads_na (container : Docker.Container) :
  calls (_get_container_ram_stats container) = [Stats (Docker.short_id container)]
  /\ succeeds (_get_container_ram_stats container)
  /\ (Docker.stats container = Ok None
      \/ (exists e, Docker.stats container = Raise e) ->
      outcome (_get_container_ram_stats container) = Ok "N/A").
Proof.
  split; [| split].
  - unfold _get_container_ram_stats, try_except, bind, external, calls.
    destruct (Docker.stats container) as [[b |] | e]; reflexivity.
  - apply _get_container_ram_stats_succeeds.
  - intros [H | H]; apply _get_container_ram_stats_succeeds; auto.
Qed.

Lemma ram_stats_failure_reads_na_witness :
  outcome (_get_container_ram_stats
             (Docker.mkContainer "0123456789ab" "worker" "exited"
                (Ok (Docker.mkImage [] "sha256:abcd")) [] [] Docker.Missing
                (Raise (OtherError "409 Conflict")) no_lifecycle))
  = Ok "N/A".
Proof.
  apply (proj2 (proj2 (ram_stats_failure_reads_na _))).
  right. eexists. reflexivity.
Defined.

Lemma span_all (p : ascii -> bool) (s a b : string) :
  span p s = (a, b) -> forall c, In c (list_ascii_of_string a) -> p c = true.
Proof.
  revert a b. induction s as [| x s IH]; cbn; intros a b.
  - intros [= <- _] c [].
  - destruct (p x) eqn:Hp.
    + destruct (span p s) as [a' b'] eqn:E. intros [= <- _] c [<- | Hc].
      * exact Hp.
      * exact (IH _ _ eq_refl c Hc).
    + intros [= <- _] c [].
Qed.

Lemma match_dport_number (s d : string) : match_dport s = Some d -> is_port_number d.
Proof.
  unfold match_dport.
  destruct (strip_prefix "--dport" s) as [rest |]; [| discriminate].
  destruct (span is_space rest) as [ws rest1].
  destruct (truthy ws); [| discriminate].
  destruct (span is_digit rest1) as [ds tail] eqn:Hd.
  destruct (truthy ds) eqn:Ht; [| discriminate].
  intros [= <-]. split; [apply truthy_true; exact Ht |].
  exact (span_all _ _ _ _ Hd).
Qed.

Lemma search_dport_number (s d : string) : search_dport s = Some d -> is_port_number d.
Proof.
  induction s as [| x s' IH]; cbn [search_dport];
    destruct (match_dport _) as [g |] eqn:Hm.
  - intros [= <-]. exact (match_dport_number _ _ Hm).
  - discriminate.
  - intros [= <-]. exact (match_dport_number _ _ Hm).
  - exact IH.
Qed.

(** Whatever running the command does, the resolver never raises and runs
    at most one command; its answer is "N/A", "Error", or a non-empty string
    of decimal digits. *)
Theorem nat_resolver_answer_shape (run : string -> result string) (ip port : string) :
  exists answer,
    outcome (_get_host_port_from_iptables run ip port) = Ok answer
    /\ (answer = "N/A" \/ answer = "Error" \/ is_port_number answer)
    /\ (List.length (calls (_get_host_port_from_iptables run ip port)) <= 1)%nat.
Proof.
  destruct (string_dec ip "") as [-> | Hip].
  { exists "N/A". cbn. auto. }
  destruct (string_dec port "") as [-> | Hport].
  { exists "N/A". unfold _get_host_port_from_iptables. rewrite orb_true_r. cbn. auto. }
  rewrite (nat_resolver_run run ip port Hip Hport). unfold outcome, calls. cbn [fst snd].
  eexists. split; [reflexivity |]. split; [| cbn; lia].
  destruct (run (iptables_command ip port)) as [output | e].
  - destruct (search_dport output) as [g |] eqn:Hs; [| auto].
    right. right. exact (search_dport_number _ _ Hs).
  - destruct e; auto.
Qed.

Lemma first_ip_addr_nonempty (networks : list (string * option string)) :
  first_ip_addr networks <> "".
Proof.
  induction networks as [| [n [ip |]] rest IH]; cbn; [discriminate | | exact IH].
  destruct (truthy ip) eqn:T; [apply truthy_true; exact T | exact IH].
Qed.

(** The address handed to the resolver is the first non-empty one among the
    attached networks, and "N/A" when there is none: it is never empty, so
    the resolver's guard on an empty address is never what stops a query. *)
Theorem first_ip_addr_spec :
  (forall networks, first_ip_addr networks <> "")
  /\ (forall networks,
        (forall item, In item networks -> snd item = None \/ snd item = Some "") ->
        first_ip_addr networks = "N/A")
  /\ (forall before network ip after,
        (forall item, In item before -> snd item = None \/ snd item = Some "") ->
        ip <> "" ->
        first_ip_addr (before ++ (network, Some ip) :: after) = ip).
Proof.
  split; [| split].
  - exact first_ip_addr_nonempty.
  - induction networks as [| [n a] rest IH]; intros H; cbn; [reflexivity |].
    assert (Hrest : first_ip_addr rest = "N/A")
      by (apply IH; intros item Hi; apply H; right; exact Hi).
    destruct (H (n, a) (or_introl eq_refl)) as [E | E]; cbn in E; subst a; cbn;
      exact Hrest.
  - induction before as [| [n a] rest IH]; intros network ip after H Hip; cbn.
    + apply truthy_true in Hip. rewrite Hip. reflexivity.
    + assert (Hrest : first_ip_addr (rest ++ (network, Some ip) :: after) = ip)
        by (apply IH; [intros item Hi; apply H; right; exact Hi | exact Hip]).
      destruct (H (n, a) (or_introl eq_refl)) as [E | E]; cbn in E; subst a; cbn;
        exact Hrest.
Qed.

Lemma first_ip_addr_spec_witness :
  first_ip_addr ([("none", None); ("host", Some "")]
                   ++ ("bridge", Some "172.17.0.5") :: [("backend", Some "10.0.0.7")])
  = "172.17.0.5".
Proof.
  apply (proj2 (proj2 first_ip_addr_spec)).
  - intros item [<- | [<- | []]]; cbn; auto.
  - discriminate.
Defined.

(** For one declared port the privileged command runs exactly when the
    runtime reported no host port and the key has a port part; a reported
    host port costs no command. *)
Theorem port_entry_queries (run : string -> result string)
    (networks : list (string * option string)) (port_key : string)
    (info : option (list (option string))) :
  calls (port_entry run (first_ip_addr networks) (port_key, info))
  = if (reported_host_port info =? "N/A")%string
       && truthy (split_slash_head port_key)
    then [Subprocess (iptables_command (first_ip_addr networks)
                        (split_slash_head port_key))]
    else [].
Proof.
  assert (Hip : first_ip_addr networks <> "") by apply first_ip_addr_nonempty.
  unfold port_entry.
  destruct (String.eqb_spec (reported_host_port info) "N/A") as [E | E]; cbn [andb].
  - destruct (truthy (split_slash_head port_key)) eqn:T.
    + apply truthy_true in T.
      rewrite (nat_resolver_run run _ _ Hip T). unfold bind, calls. cbn [fst snd].
      match goal with |- context [if ?b then _ else _] => destruct b end; reflexivity.
    + apply truthy_false in T. rewrite T.
      unfold _get_host_port_from_iptables. rewrite orb_true_r. reflexivity.
  - unfold bind, ret, calls. cbn [fst snd].
    destruct (negb (reported_host_port info =? "N/A")%string); reflexivity.
Qed.

(** The port part of a key such as "80/tcp" is what precedes the first
    slash, and the whole key when it has none. *)
Theorem split_slash_head_spec :
  (forall port rest,
      ~ In "/"%char (list_ascii_of_string port) ->
      split_slash_head (port ++ String "/" rest) = port)
  /\ (forall port_key,
        ~ In "/"%char (list_ascii_of_string port_key) -> split_slash_head port_key = port_key)
  /\ (forall port_key, ~ In "/"%char (list_ascii_of_string (split_slash_head port_key))).
Proof.
  split; [| split].
  - induction port as [| c port IH]; intros rest H; cbn; [reflexivity |].
    destruct (Ascii.eqb_spec c "/") as [-> | _].
    + exfalso. apply H. left. reflexivity.
    + rewrite IH; [reflexivity |]. intros Hin. apply H. right. exact Hin.
  - induction port_key as [| c port_key IH]; intros H; cbn; [reflexivity |].
    destruct (Ascii.eqb_spec c "/") as [-> | _].
    + exfalso. apply H. left. reflexivity.
    + rewrite IH; [reflexivity |]. intros Hin. apply H. right. exact Hin.
  - induction port_key as [| c port_key IH]; cbn; [tauto |].
    destruct (Ascii.eqb_spec c "/") as [-> | Hc]; cbn; [tauto |].
    intros [E | Hin]; [congruence | exact (IH Hin)].
Qed.

Lemma split_slash_head_spec_witness : split_slash_head "8080/tcp" = "8080".
Proof.
  apply (proj1 split_slash_head_spec "8080" "tcp").
  cbn. intros H. repeat destruct H as [H | H]; try discriminate H. exact H.
Defined.

(** A running container whose start timestamp is missing or is not in ISO
    format has the uptime "Error"; no exception leaves the method. *)
Theorem uptime_error_sentinel (container : Docker.Container) :
  Docker.status container = "running" ->
  Docker.started_at container = Docker.Missing
  \/ Docker.started_at container = Docker.Malformed ->
  _get_container_uptime container = ret "Error".
Proof.
  intros Hs Hm. destruct (_get_container_uptime_failures container Hs) as (H1 & H2 & _).
  destruct Hm as [Hm | Hm]; auto.
Qed.

Lemma uptime_error_sentinel_witness :
  _get_container_uptime (sample_container "web-1" "running" Docker.Malformed)
  = ret "Error".
Proof.
  apply uptime_error_sentinel; [reflexivity | right; reflexivity].
Defined.

(** ** Actions *)

Lemma _perform_action_unavailable (self : Monitor) (action_name : string)
    (containers : list ContainerRecord.t) (new_name : option string) :
  unavailable self -> _perform_action self action_name containers new_name = ret self.
Proof.
  unfold unavailable, _perform_action. intros ->. rewrite orb_true_r. reflexivity.
Qed.

(** With an empty list, or with the standing error set, an action does
    nothing: no call reaches the runtime and the instance is unchanged. *)
Theorem _perform_action_noop (self : Monitor) (action_name : string)
    (containers : list ContainerRecord.t) (new_name : option string) :
  containers = [] \/ unavailable self ->
  _perform_action self action_name containers new_name = ret self.
Proof.
  intros [-> | Hu]; [reflexivity | apply _perform_action_unavailable; exact Hu].
Qed.

Lemma _perform_action_noop_witness :
  _perform_action (__init__ (Raise (OtherError "connection refused"))) "remove"
    six_records None
  = ret (__init__ (Raise (OtherError "connection refused"))).
Proof. apply _perform_action_noop. right. reflexivity. Defined.

Lemma getitem_nil {A} (i : Z) : getitem (@nil A) i = None.
Proof.
  unfold getitem. cbn [List.length].
  destruct (i <? 0);
    [destruct (0 <=? Z.of_nat 0 + i); [apply nth_error_nil | reflexivity]
    | apply nth_error_nil].
Qed.

(** On the selected entry, each of the five actions makes exactly one call,
    to that entry's container, and never raises: a call that raised leaves
    "Error: " and its text in the status message, a call that went through
    leaves a message starting with "Successfully"; nothing else of the
    instance changes. *)
Theorem _perform_action_dispatch (self : Monitor) (action_name : string)
    (containers : list ContainerRecord.t) (new_name : option string)
    (entry : ContainerRecord.t) :
  ~ unavailable self ->
  getitem containers (selected_index self) = Some entry ->
  action_name = "start" \/ action_name = "stop" \/ action_name = "restart"
  \/ action_name = "remove" \/ action_name = "rename" ->
  let target := ContainerRecord.obj entry in
  let action := _perform_action self action_name containers new_name in
  calls action = [Lifecycle action_name (Docker.short_id target)]
  /\ (forall e, Docker.lifecycle target action_name = Raise e ->
        outcome action = Ok (set_status_message self ("Error: " ++ str_of_exn e)%string))
  /\ (Docker.lifecycle target action_name = Ok tt ->
        exists message,
          outcome action = Ok (set_status_message self message)
          /\ String.prefix "Successfully" message = true).
Proof.
  intros Hu Hg Ha target action. subst target action.
  unfold _perform_action, unavailable in *.
  destruct containers as [| c cs]; [rewrite getitem_nil in Hg; discriminate |].
  apply not_true_is_false in Hu. rewrite Hu, Hg. cbn [nonempty negb orb].
  unfold try_except, bind, external, ret, calls, outcome.
  destruct Ha as [-> | [-> | [-> | [-> | ->]]]]; cbn [String.eqb Ascii.eqb Bool.eqb orb];
    destruct (Docker.lifecycle (ContainerRecord.obj entry) _) as [[] | e'];
    cbn [fst snd app];
    (split; [reflexivity |]);
    (split; [intros e [= <-] || intros e [=]; reflexivity |]);
    intros [=]; eexists; split; reflexivity.
Qed.

Lemma _perform_action_dispatch_witness :
  calls (_perform_action on_last_row "stop" six_records None)
  = [Lifecycle "stop" "0123456789ab"]
  /\ exists message,
       outcome (_perform_action on_last_row "stop" six_records None)
       = Ok (set_status_message on_last_row message)
       /\ String.prefix "Successfully" message = true.
Proof.
  destruct (_perform_action_dispatch on_last_row "stop" six_records None
              (sample_record "f") ltac:(cbn; discriminate) eq_refl
              ltac:(right; left; reflexivity)) as (Hc & _ & Hok).
  split; [exact Hc | exact (Hok eq_refl)].
Defined.

(** ** The loop *)

(** Every pass that continues ends by drawing a frame. *)
Lemma loop_body_render (self : Monitor) (containers : list ContainerRecord.t)
    (t : Tick) :
  returns (loop_body self containers t)
    (fun next =>
       match next with
       | None => True
       | Some (self', containers') =>
           exists drawn, self' = fst (render drawn (height t) containers')
       end).
Proof.
  unfold loop_body. destruct (key_in (key t) "q" "Q"); [exact I |].
  apply (returns_bind _ _ (fun _ => True)); [apply returns_any |].
  intros [self1 cs1] _.
  apply (returns_bind _ _ (fun _ => True)); [apply returns_any |].
  intros [self2 cs2] _.
  destruct (render self2 (height t) cs2) as [self3 frame] eqn:E.
  apply returns_ret. exists self2. rewrite E. reflexivity.
Qed.

Lemma render_status_settled (self : Monitor) (height : Z)
    (containers : list ContainerRecord.t) :
  contains "Successfully" (status_message (fst (render self height containers))) = false
  /\ contains "Error" (status_message (fst (render self height containers))) = false.
Proof.
  rewrite render_unfold.
  destruct (_draw_footer_status (fst (_draw_container_list self height containers)))
    as [-> _].
  set (message := status_message (fst (_draw_container_list self height containers))).
  destruct (contains "Successfully" message) eqn:E1; cbn [orb]; [split; reflexivity |].
  destruct (contains "Error" message) eqn:E2; [split; reflexivity | split; assumption].
Qed.

(** A message reporting success or an error is shown in one frame only:
    after every pass that continues, the status message contains neither
    "Successfully" nor "Error". *)
Theorem terminal_message_shown_once (self : Monitor)
    (containers : list ContainerRecord.t) (t : Tick)
    (self' : Monitor) (containers' : list ContainerRecord.t) :
  outcome (loop_body self containers t) = Ok (Some (self', containers')) ->
  contains "Successfully" (status_message self') = false
  /\ contains "Error" (status_message self') = false.
Proof.
  intros E.
  destruct (returns_elim _ _ _ (loop_body_render self containers t) E) as [drawn ->].
  apply render_status_settled.
Qed.

Lemma terminal_message_shown_once_witness :
  exists self',
    outcome (loop_body on_last_row six_records (pass (ord "s") []))
    = Ok (Some (self', six_records))
    /\ contains "Successfully" (status_message self') = false
    /\ contains "Error" (status_message self') = false.
Proof.
  eexists. split; [vm_compute; reflexivity |].
  eapply (terminal_message_shown_once on_last_row six_records (pass (ord "s") [])).
  vm_compute. reflexivity.
Defined.

(** After every pass that continues with containers to show and no
    standing error, on a terminal with at least one list line, the selection
    lies inside the window the scroll offset opens. *)
Theorem selection_visible_after_pass (self : Monitor)
    (containers : list ContainerRecord.t) (t : Tick)
    (self' : Monitor) (containers' : list ContainerRecord.t) :
  outcome (loop_body self containers t) = Ok (Some (self', containers')) ->
  ~ unavailable self' -> containers' <> [] -> 13 <= height t ->
  scroll_pos self' <= selected_index self' < scroll_pos self' + (height t - 12).
Proof.
  intros E Hu Hne Hh.
  destruct (returns_elim _ _ _ (loop_body_render self containers t) E) as [drawn ->].
  destruct (render_keeps drawn (height t) containers') as [Hi He].
  rewrite Hi, render_scroll. unfold unavailable in Hu. rewrite He in Hu.
  apply not_true_is_false in Hu. rewrite Hu.
  destruct containers' as [| c cs]; [contradiction |]. cbn [nonempty negb orb].
  rewrite adjust_scroll_value. cbn zeta.
  destruct (Z.geb_spec (selected_index drawn)
              (Z.min (scroll_pos drawn) (selected_index drawn) + (height t - 12)));
    lia.
Qed.

Lemma selection_visible_after_pass_witness :
  exists self',
    outcome (loop_body on_last_row six_records (mkTick KEY_UP 15 (world_of []) ""))
    = Ok (Some (self', six_records))
    /\ scroll_pos self' <= selected_index self' < scroll_pos self' + (15 - 12).
Proof.
  eexists. split; [vm_compute; reflexivity |].
  apply (selection_visible_after_pass on_last_row six_records
           (mkTick KEY_UP 15 (world_of []) "") _ six_records).
  - vm_compute. reflexivity.
  - cbn. discriminate.
  - discriminate.
  - cbn. lia.
Defined.

Lemma dispatch_key_list (self : Monitor) (containers : list ContainerRecord.t)
    (t : Tick) :
  key_in (key t) "u" "U" = false ->
  returns (dispatch_key self containers t) (fun r => snd r = containers).
Proof.
  intros Hk.
  assert (Hact : forall self0 action new_name,
             returns (self1 <- _perform_action self0 action containers new_name ;;
                      ret (self1, containers))
               (fun r => snd r = containers)).
  { intros. apply (returns_bind _ _ (fun _ => True)); [apply returns_any |].
    intros self1 _. apply returns_ret. reflexivity. }
  unfold dispatch_key. rewrite Hk.
  destruct (key t =? KEY_UP); [apply returns_ret; reflexivity |].
  destruct ((key t =? KEY_DOWN) && nonempty containers);
    [apply returns_ret; reflexivity |].
  destruct (key_in (key t) "s" "S"); [apply Hact |].
  destruct (key_in (key t) "x" "X" && nonempty containers).
  { destruct (_draw_footer _) as [self0 line]. apply Hact. }
  destruct (key_in (key t) "r" "R"); [apply Hact |].
  destruct (key_in (key t) "d" "D" && nonempty containers).
  { destruct (getitem containers (selected_index self)); [| apply returns_raise].
    destruct (_confirm_action (typed t)); [apply Hact | apply returns_ret; reflexivity]. }
  destruct (key_in (key t) "n" "N" && nonempty containers).
  { destruct (getitem containers (selected_index self)); [| apply returns_raise].
    destruct (truthy (_get_new_name (typed t)));
      [apply Hact | apply returns_ret; reflexivity]. }
  apply returns_ret. reflexivity.
Qed.

(** The list the loop holds is replaced only by a refresh: after a pass on
    any key other than [u]/[U] and the idle timeout it is the same list, so
    the effect of an action shows only with the next refresh. *)
Theorem only_refresh_replaces_list (self : Monitor)
    (containers : list ContainerRecord.t) (t : Tick)
    (self' : Monitor) (containers' : list ContainerRecord.t) :
  refresh_key (key t) = false ->
  outcome (loop_body self containers t) = Ok (Some (self', containers')) ->
  containers' = containers.
Proof.
  intros Hk. apply orb_false_elim in Hk. destruct Hk as [Hu Hidle].
  assert (R : returns (loop_body self containers t)
                (fun next => match next with
                             | None => True
                             | Some (_, containers') => containers' = containers
                             end)).
  { unfold loop_body. destruct (key_in (key t) "q" "Q"); [exact I |].
    eapply returns_bind; [apply (dispatch_key_list _ _ _ Hu) |].
    intros [self1 cs1] H1. cbn [snd] in H1. subst cs1.
    unfold idle_refresh. rewrite Hidle. cbn [bind ret].
    destruct (render self1 (height t) containers). apply returns_ret. reflexivity. }
  intros E. exact (returns_elim _ _ _ R E).
Qed.

Lemma only_refresh_replaces_list_witness :
  exists self' containers',
    outcome (loop_body on_last_row six_records (pass (ord "r") [alpha]))
    = Ok (Some (self', containers'))
    /\ containers' = six_records.
Proof.
  eexists. eexists. split; [vm_compute; reflexivity |].
  eapply (only_refresh_replaces_list on_last_row six_records (pass (ord "r") [alpha]));
    [reflexivity | vm_compute; reflexivity].
Defined.

(** Each command key does the same in lower and in upper case. *)
Theorem keys_ignore_case (self : Monitor) (containers : list ContainerRecord.t)
    (height : Z) (w : World) (typed : string) :
  let on c := loop_body self containers (mkTick (ord c) height w typed) in
  on "q"%char = on "Q"%char /\ on "u"%char = on "U"%char
  /\ on "s"%char = on "S"%char /\ on "x"%char = on "X"%char
  /\ on "r"%char = on "R"%char /\ on "d"%char = on "D"%char
  /\ on "n"%char = on "N"%char.
Proof.
  cbn zeta. unfold loop_body, dispatch_key, idle_refresh. cbn [key].
  repeat split; reflexivity.
Qed.

(** ** The standing error silences the monitor *)

Section Silence.

Context {A B : Type}.

Lemma silent_ret (a : A) : silent (ret a).
Proof. reflexivity. Qed.

Lemma silent_raise (e : exn) : silent (@raise A e).
Proof. reflexivity. Qed.

Lemma silent_bind (m : M A) (k : A -> M B) (Q : A -> Prop) :
  silent m -> returns m Q -> (forall a, Q a -> silent (k a)) -> silent (bind m k).
Proof.
  unfold silent, returns, bind, calls, outcome.
  destruct m as [[a | e] t]; cbn; intros -> HQ Hk; [| reflexivity].
  specialize (Hk a HQ). destruct (k a) as [r t']. cbn in *. exact Hk.
Qed.

End Silence.

Lemma dispatch_key_silent (self : Monitor) (containers : list ContainerRecord.t)
    (t : Tick) :
  unavailable self -> silent (dispatch_key self containers t).
Proof.
  intros Hu.
  assert (Hact : forall self0 action new_name,
             docker_error self0 = docker_error self ->
             silent (self1 <- _perform_action self0 action containers new_name ;;
                     ret (self1, containers))).
  { intros self0 action new_name He.
    rewrite _perform_action_unavailable;
      [reflexivity | unfold unavailable in *; rewrite He; exact Hu]. }
  unfold dispatch_key.
  destruct (key t =? KEY_UP); [apply silent_ret |].
  destruct ((key t =? KEY_DOWN) && nonempty containers); [apply silent_ret |].
  destruct (key_in (key t) "u" "U").
  { rewrite (get_docker_containers_unavailable _ _ Hu). reflexivity. }
  destruct (key_in (key t) "s" "S"); [apply Hact; reflexivity |].
  destruct (key_in (key t) "x" "X" && nonempty containers).
  { destruct (_draw_footer_keeps
                (set_status_message self
                   "Stopping container, this may take a minute..."))
      as (_ & _ & He).
    destruct (_draw_footer _) as [self0 line]. apply Hact. exact He. }
  destruct (key_in (key t) "r" "R"); [apply Hact; reflexivity |].
  destruct (key_in (key t) "d" "D" && nonempty containers).
  { destruct (getitem containers (selected_index self)); [| apply silent_raise].
    destruct (_confirm_action (typed t)); [apply Hact; reflexivity | apply silent_ret]. }
  destruct (key_in (key t) "n" "N" && nonempty containers).
  { destruct (getitem containers (selected_index self)); [| apply silent_raise].
    destruct (truthy (_get_new_name (typed t)));
      [apply Hact; reflexivity | apply silent_ret]. }
  apply silent_ret.
Qed.

Lemma loop_body_silent (self : Monitor) (containers : list ContainerRecord.t)
    (t : Tick) :
  unavailable self -> silent (loop_body self containers t).
Proof.
  intros Hu. unfold loop_body.
  destruct (key_in (key t) "q" "Q"); [apply silent_ret |].
  apply (silent_bind _ _ (fun r => unavailable (fst r)));
    [apply dispatch_key_silent; exact Hu | |].
  - apply (returns_weaken _ _ _ (dispatch_key_keeps self containers t)).
    intros [self1 cs1] (_ & _ & [He | (_ & _ & Hn)]); [| contradiction].
    unfold unavailable in *. cbn [fst] in *. rewrite He. exact Hu.
  - intros [self1 cs1] Hu1. cbn [fst] in Hu1.
    apply (silent_bind _ _ (fun _ => True)); [| apply returns_any |].
    + unfold idle_refresh. destruct (key t =? -1); [| apply silent_ret].
      rewrite (get_docker_containers_unavailable _ _ Hu1). reflexivity.
    + intros [self2 cs2] _. destruct (render self2 (height t) cs2).
      apply silent_ret.
Qed.

(** With the standing error set nothing leaves the process any more: no
    pass of the loop, whatever the key, contacts the runtime or runs a
    command; and when the runtime could not be reached at start-up this
    holds for the whole run. *)
Theorem unavailable_monitor_is_silent :
  (forall self containers t,
      unavailable self -> calls (loop_body self containers t) = [])
  /\ (forall self containers ticks,
        unavailable self -> calls (iterate self containers ticks) = [])
  /\ (forall e startup ticks,
        calls (_app_loop (__init__ (Raise e)) startup ticks) = []).
Proof.
  assert (Run : forall ticks self containers,
             unavailable self -> silent (iterate self containers ticks)).
  { induction ticks as [| t rest IH]; intros self cs Hu; cbn [iterate];
      [apply silent_ret |].
    apply (silent_bind _ _
             (fun next => match next with
                          | None => True
                          | Some (self', _) => unavailable self'
                          end));
      [apply loop_body_silent; exact Hu | |].
    - apply (returns_weaken _ _ _ (loop_body_keeps self cs t)).
      intros [[self' cs'] |] H; [| exact I]. destruct H as (_ & _ & He).
      unfold unavailable in *. rewrite (He Hu). exact Hu.
    - intros [[self' cs'] |] H; [apply IH; exact H | apply silent_ret]. }
  split; [| split].
  - exact loop_body_silent.
  - intros self cs ticks. apply Run.
  - intros e startup ticks. unfold _app_loop.
    rewrite get_docker_containers_unavailable by reflexivity.
    cbn [bind ret]. 
    pose proof (Run ticks (__init__ (Raise e)) [] eq_refl) as H.
    unfold silent, calls in *. destruct (iterate _ _ _) as [r t']. cbn in *. exact H.
Qed.

Lemma unavailable_monitor_is_silent_witness :
  calls (loop_body (__init__ (Raise (OtherError "connection refused"))) six_records
           (pass (ord "s") [alpha]))
  = [].
Proof.
  apply (proj1 unavailable_monitor_is_silent). reflexivity.
Defined.

(** ** Prompts, navigation and the validity of the selection *)


Lemma index_valid_nonempty (self : Monitor) (containers : list ContainerRecord.t) :
  index_valid self containers ->
  nonempty containers = true
  /\ exists entry, getitem containers (selected_index self) = Some entry.
Proof.
  intros H. split.
  - destruct containers; [unfold index_valid, len in H; cbn in H; lia | reflexivity].
  - apply getitem_valid. exact H.
Qed.







(** A valid selection stays valid through every pass after which the list
    is no shorter than before; only a refresh that shrinks the list can
    leave the selection past its end. *)
Theorem index_valid_unless_list_shrinks (self : Monitor)
    (containers : list ContainerRecord.t) (t : Tick)
    (self' : Monitor) (containers' : list ContainerRecord.t) :
  index_valid self containers ->
  outcome (loop_body self containers t) = Ok (Some (self', containers')) ->
  len containers <= len containers' ->
  index_valid self' containers'.
Proof.
  unfold index_valid. intros Hv E Hlen.
  pose proof (returns_elim _ _ _ (loop_body_keeps self containers t) E)
    as (Hsel & _ & _).
  lia.
Qed.

Lemma index_valid_unless_list_shrinks_witness :
  exists self' containers',
    outcome (loop_body on_last_row six_records (pass KEY_UP []))
    = Ok (Some (self', containers'))
    /\ index_valid self' containers'.
Proof.
  eexists. eexists. split; [vm_compute; reflexivity |].
  apply (index_valid_unless_list_shrinks on_last_row six_records (pass KEY_UP [])).
  - unfold index_valid. cbn. lia.
  - vm_compute. reflexivity.
  - cbn. lia.
Defined.

(** ** Drawing the list *)

(** With a valid selection, a non-negative scroll offset and at least one
    list line, the rows drawn are at most as many as the list lines, and the
    selected container is among them, at the row the highlight test
    [scroll_pos + i == selected_index] picks. *)
Theorem selected_row_is_drawn (self : Monitor) (height : Z)
    (containers : list ContainerRecord.t) :
  ~ unavailable self -> index_valid self containers ->
  0 <= scroll_pos self -> 13 <= height ->
  exists self' visible_containers,
    _draw_container_list self height containers = (self', Rows visible_containers)
    /\ Z.of_nat (List.length visible_containers) <= height - 12
    /\ 0 <= selected_index self - scroll_pos self' < height - 12
    /\ nth_error visible_containers (Z.to_nat (selected_index self - scroll_pos self'))
       = nth_error containers (Z.to_nat (selected_index self)).
Proof.
  intros Hu Hv Hs Hh. destruct (index_valid_nonempty _ _ Hv) as [Hne _].
  unfold _draw_container_list, unavailable in *.
  apply not_true_is_false in Hu. rewrite Hu, Hne. cbn [negb].
  eexists. eexists. split; [reflexivity |].
  pose proof (adjust_scroll_value self (height - 12)) as Hval. cbn zeta in Hval.
  set (top := scroll_pos (adjust_scroll self (height - 12))) in *.
  unfold index_valid, len in Hv.
  assert (Htop : 0 <= top /\ top <= selected_index self < top + (height - 12)).
  { rewrite Hval.
    destruct (Z.geb_spec (selected_index self)
                (Z.min (scroll_pos self) (selected_index self) + (height - 12)));
      lia. }
  unfold slice.
  destruct (Z.ltb_spec top 0) as [? | _]; [lia |].
  destruct (Z.ltb_spec (top + (height - 12)) 0) as [? | _]; [lia |].
  set (n := Z.of_nat (List.length containers)) in *.
  rewrite (Z.min_r n top) by lia.
  split; [| split; [lia |]].
  - pose proof (firstn_le_length (Z.to_nat (Z.min n (top + (height - 12)) - top))
                  (skipn (Z.to_nat top) containers)). lia.
  - rewrite nth_error_firstn.
    destruct (Nat.ltb_spec (Z.to_nat (selected_index self - top))
                (Z.to_nat (Z.min n (top + (height - 12)) - top))) as [_ | ?]; [| lia].
    rewrite nth_error_skipn. f_equal. lia.
Qed.

Lemma selected_row_is_drawn_witness :
  exists self' visible_containers,
    _draw_container_list on_last_row 15 six_records = (self', Rows visible_containers)
    /\ Z.of_nat (List.length visible_containers) <= 15 - 12
    /\ 0 <= selected_index on_last_row - scroll_pos self' < 15 - 12
    /\ nth_error visible_containers
         (Z.to_nat (selected_index on_last_row - scroll_pos self'))
       = nth_error six_records (Z.to_nat (selected_index on_last_row)).
Proof.
  apply selected_row_is_drawn.
  - cbn. discriminate.
  - unfold index_valid. cbn. lia.
  - cbn. lia.
  - lia.
Defined.

Lemma monitor_ext (a b : Monitor) :
  docker_error a = docker_error b -> selected_index a = selected_index b ->
  scroll_pos a = scroll_pos b -> status_message a = status_message b -> a = b.
Proof. destruct a, b. cbn. intros -> -> -> ->. reflexivity. Qed.

Lemma adjust_scroll_idempotent (self : Monitor) (list_height : Z) :
  adjust_scroll (adjust_scroll self list_height) list_height
  = adjust_scroll self list_height.
Proof.
  destruct (adjust_scroll_keeps (adjust_scroll self list_height) list_height)
    as (Hi & He & Hm).
  apply monitor_ext; [exact He | exact Hi | | exact Hm].
  rewrite (adjust_scroll_value (adjust_scroll self list_height)). cbn zeta.
  destruct (adjust_scroll_keeps self list_height) as (-> & _ & _).
  pose proof (adjust_scroll_value self list_height) as V. cbn zeta in V.
  set (top := scroll_pos (adjust_scroll self list_height)) in *.
  destruct (Z.geb_spec (selected_index self)
              (Z.min (scroll_pos self) (selected_index self) + list_height));
    destruct (Z.geb_spec (selected_index self)
                (Z.min top (selected_index self) + list_height)); lia.
Qed.

Lemma _draw_footer_idempotent (self : Monitor) :
  fst (_draw_footer (fst (_draw_footer self))) = fst (_draw_footer self).
Proof.
  unfold _draw_footer at 2 3.
  destruct (truthy (status_message self)) eqn:T.
  - destruct (contains "Successfully" (status_message self)
              || contains "Error" (status_message self)) eqn:C; cbn [fst].
    + reflexivity.
    + unfold _draw_footer. rewrite T, C. reflexivity.
  - cbn [fst]. unfold _draw_footer. rewrite T. reflexivity.
Qed.

Lemma render_status (self : Monitor) (height : Z)
    (containers : list ContainerRecord.t) :
  status_message (fst (render self height containers))
  = (if contains "Successfully" (status_message self)
        || contains "Error" (status_message self)
     then "" else status_message self).
Proof.
  rewrite render_unfold.
  destruct (_draw_footer_status (fst (_draw_container_list self height containers)))
    as [-> _].
  destruct (_draw_container_list_keeps self height containers) as (_ & _ & ->).
  reflexivity.
Qed.

(** Drawing a second frame of the same list changes nothing more: after one
    frame the scroll offset and the status message are settled. *)
Theorem render_idempotent (self : Monitor) (height : Z)
    (containers : list ContainerRecord.t) :
  fst (render (fst (render self height containers)) height containers)
  = fst (render self height containers).
Proof.
  set (once := fst (render self height containers)).
  destruct (render_keeps once height containers) as [Hi He].
  destruct (render_keeps self height containers) as [Hi1 He1]. fold once in Hi1, He1.
  apply monitor_ext; [exact He | exact Hi | |].
  - rewrite (render_scroll once). rewrite He1.
    pose proof (render_scroll self height containers) as S1. fold once in S1.
    destruct (truthy_opt (docker_error self) || negb (nonempty containers));
      [reflexivity |].
    rewrite (adjust_scroll_value once). cbn zeta. rewrite Hi1.
    rewrite (adjust_scroll_value self) in S1. cbn zeta in S1.
    destruct (Z.geb_spec (selected_index self)
                (Z.min (scroll_pos self) (selected_index self) + (height - 12)));
      destruct (Z.geb_spec (selected_index self)
                  (Z.min (scroll_pos once) (selected_index self) + (height - 12)));
      lia.
  - rewrite (render_status once).
    destruct (render_status_settled self height containers) as [C1 C2].
    fold once in C1, C2. rewrite C1, C2. reflexivity.
Qed.

(** ** The text and colour of a row *)

Lemma length_append (a b : string) :
  String.length (a ++ b) = (String.length a + String.length b)%nat.
Proof. induction a as [| c a IH]; cbn; [reflexivity | rewrite IH; reflexivity]. Qed.

Lemma length_spaces (n : nat) : String.length (spaces n) = n.
Proof. induction n as [| n IH]; cbn; [reflexivity | rewrite IH; reflexivity]. Qed.

Lemma length_take (n : nat) (s : string) :
  String.length (take n s) = Nat.min n (String.length s).
Proof.
  revert s. induction n as [| n IH]; intros [| c s]; cbn; try reflexivity.
  rewrite IH. reflexivity.
Qed.

Lemma take_all (n : nat) (s : string) : (String.length s <= n)%nat -> take n s = s.
Proof.
  revert s. induction n as [| n IH]; intros [| c s]; cbn; intros H;
    try reflexivity; [lia |].
  rewrite IH by lia. reflexivity.
Qed.

Lemma take_prefix (n : nat) (s : string) : String.prefix (take n s) s = true.
Proof.
  revert s. induction n as [| n IH]; intros [| c s]; cbn; try reflexivity.
  destruct (ascii_dec c c) as [_ | Hc]; [apply IH | contradiction].
Qed.

Lemma length_ljust (width : nat) (s : string) :
  String.length (ljust width s) = Nat.max width (String.length s).
Proof. unfold ljust. rewrite length_append, length_spaces. lia. Qed.

Lemma length_column (width : nat) (s : string) :
  String.length (column width s) = width.
Proof. unfold column. rewrite length_ljust, length_take. lia. Qed.

(** The name, image and ports columns always have their fixed width: a
    longer field is cut to its first characters, a shorter one is padded
    with spaces.  With an identifier of at most twelve characters the first
    part of a row is 72 characters long, so the status column starts at the
    same place on every row. *)
Theorem row_text_layout :
  (forall width s,
      String.length (column width s) = width
      /\ String.prefix (take width s) s = true
      /\ ((width <= String.length s)%nat -> column width s = take width s)
      /\ ((String.length s <= width)%nat -> column width s = ljust width s))
  /\ (forall container,
        (String.length (ContainerRecord.id container) <= 12)%nat ->
        String.length (line_part1 container) = 72%nat).
Proof.
  split.
  - intros width s. split; [apply length_column |]. split; [apply take_prefix |].
    split; intros H; unfold column.
    + unfold ljust. rewrite length_take.
      replace (width - Nat.min width (String.length s))%nat with 0%nat by lia.
      apply append_empty_r.
    + rewrite take_all by exact H. reflexivity.
  - intros container H. unfold line_part1.
    rewrite !length_append, !length_column, length_ljust.
    unfold ID_WIDTH, NAME_WIDTH, IMAGE_WIDTH, PORT_WIDTH. cbn [String.length].
    rewrite Nat.max_l by exact H. reflexivity.
Qed.

Lemma row_text_layout_witness :
  column PORT_WIDTH "54772->80" = take PORT_WIDTH "54772->80"
  /\ String.length (line_part1 (sample_record "a")) = 72%nat.
Proof.
  split.
  - apply (proj1 row_text_layout PORT_WIDTH "54772->80").
    unfold PORT_WIDTH. cbn. lia.
  - apply (proj2 row_text_layout). cbn. lia.
Defined.

(** The status column is green (pair 1, or 6 on the selected row) exactly
    when the lower-cased status contains "up".  The status "running" does
    not: a running container is drawn in the fallback colour (pair 3, or 8
    when selected), and an exited one in red (pair 2, or 7). *)
Theorem status_colour :
  (forall is_selected container,
      status_attr is_selected container = 1 \/ status_attr is_selected container = 6
      <-> contains "up" (lower (ContainerRecord.status container)) = true)
  /\ (forall container,
        ContainerRecord.status container = "running" ->
        status_attr false container = 3 /\ status_attr true container = 8)
  /\ (forall container,
        ContainerRecord.status container = "exited" ->
        status_attr false container = 2 /\ status_attr true container = 7).
Proof.
  split; [| split].
  - intros b c. unfold status_attr.
    destruct b; destruct (contains "up" _); [| destruct (contains "exited" _) |
                                             | destruct (contains "exited" _)];
      split; intros H; try reflexivity; try discriminate H; auto;
      destruct H as [H | H]; discriminate H.
  - intros c H. unfold status_attr. rewrite H. split; reflexivity.
  - intros c H. unfold status_attr. rewrite H. split; reflexivity.
Qed.

Lemma status_colour_witness :
  status_attr false
    (ContainerRecord.mk "0123456789ab" "web-1" "running" "nginx:latest"
       "54772->80" "1h1m" "1.00G" web_1) = 3.
Proof.
  apply (proj1 (proj2 status_colour)). reflexivity.
Defined.

(** ** The message of a manual refresh *)

Ltac eval_key_tests :=
  repeat match goal with
         | |- context [key_in ?k ?b ?c] =>
             let v := eval vm_compute in (key_in k b c) in
             match v with
             | true => change (key_in k b c) with true
             | false => change (key_in k b c) with false
             end
         | |- context [?k =? ?j] =>
             let v := eval vm_compute in (k =? j) in
             match v with
             | true => change (k =? j) with true
             | false => change (k =? j) with false
             end
         end.

Lemma render_keeps_plain_message (self : Monitor) (height : Z)
    (containers : list ContainerRecord.t) :
  status_message self = "Container list updated." ->
  status_message (fst (render self height containers)) = "Container list updated.".
Proof. intros H. rewrite render_status, H. reflexivity. Qed.

(** A manual refresh leaves "Container list updated." in the status
    message, and since that text reports neither success nor an error it is
    not cleared by drawing: it is still there after any later arrow key or
    idle pass. *)
Theorem update_message_stays :
  (forall self containers t self' containers',
      key t = ord "u" \/ key t = ord "U" ->
      outcome (loop_body self containers t) = Ok (Some (self', containers')) ->
      status_message self' = "Container list updated.")
  /\ (forall self containers t self' containers',
        key t = KEY_UP \/ key t = KEY_DOWN \/ key t = -1 ->
        status_message self = "Container list updated." ->
        outcome (loop_body self containers t) = Ok (Some (self', containers')) ->
        status_message self' = "Container list updated.").
Proof.
  split.
  - intros self cs t self' cs' Hk.
    assert (R : returns (loop_body self cs t)
                  (fun next => match next with
                               | None => True
                               | Some (s, _) => status_message s = "Container list updated."
                               end)).
    { unfold loop_body, dispatch_key, idle_refresh.
      destruct Hk as [Hk | Hk]; rewrite Hk; eval_key_tests; cbn [andb orb];
        (eapply returns_bind;
         [eapply returns_bind; [apply returns_any |];
          intros [cs1 self1] _;
          apply (returns_ret _ (fun r => status_message (fst r) = "Container list updated."));
          reflexivity |]);
        intros [self1 cs1] H1; cbn [fst bind ret] in *;
        pose proof (render_keeps_plain_message self1 (height t) cs1 H1);
        destruct (render self1 (height t) cs1); apply returns_ret; assumption. }
    intros E. exact (returns_elim _ _ _ R E).
  - intros self cs t self' cs' [Hk | [Hk | Hk]] Hm.
    + rewrite (loop_body_up _ _ _ Hk). intros [= <- _].
      apply render_keeps_plain_message. exact Hm.
    + rewrite (loop_body_down _ _ _ Hk). intros [= <- _].
      apply render_keeps_plain_message. destruct (nonempty cs); exact Hm.
    + assert (R : returns (loop_body self cs t)
                    (fun next => match next with
                                 | None => True
                                 | Some (s, _) =>
                                     status_message s = "Container list updated."
                                 end)).
      { unfold loop_body, dispatch_key, idle_refresh.
        rewrite Hk; eval_key_tests; cbn [andb orb].
        apply (returns_bind _ _ (fun r => r = (self, cs)));
          [apply returns_ret; reflexivity | intros r ->].
        eapply returns_bind;
          [eapply returns_bind; [apply get_docker_containers_keeps |];
           intros [cs1 self1] (_ & _ & H1 & _);
           apply (returns_ret _ (fun r => status_message (fst r)
                                          = "Container list updated."));
           cbn [fst snd] in *; congruence |].
        intros [self1 cs1] H1; cbn [fst] in *.
        pose proof (render_keeps_plain_message self1 (height t) cs1 H1).
        destruct (render self1 (height t) cs1); apply returns_ret; assumption. }
      intros E. exact (returns_elim _ _ _ R E).
Qed.

Lemma update_message_stays_witness :
  exists self' containers',
    outcome (loop_body on_last_row six_records (pass (ord "u") [alpha; bravo]))
    = Ok (Some (self', containers'))
    /\ status_message self' = "Container list updated.".
Proof.
  eexists. eexists. split; [vm_compute; reflexivity |].
  eapply (proj1 update_message_stays on_last_row six_records
            (pass (ord "u") [alpha; bravo]));
    [left; reflexivity | vm_compute; reflexivity].
Defined.
